(** * Kernel selection (client/datascience/jupyter/kernels/kernelSelector.ts)

    A shallow embedding of the [KernelSelector] class: the ignore list of
    hidden kernel ids, the suggestion filter, the scoring loop of
    [getKernelForRemoteConnection], and the interactive fall-backs
    [selectKernel] and [useInterpreterAsKernel].

    JavaScript strings are embedded as [string] (code units below 256),
    JavaScript numbers that the code only uses as integers as [number]
    (NaN, an integer-valued Number or an infinity), optional fields and
    [undefined] as [option]. *)

From Stdlib Require Import ZArith String Ascii List Lia Bool.
From Stdlib Require Import DecimalString DecimalPos.
From stdpp Require Import base numbers list strings gmap sets.

Set Default Proof Using "Type".

(** ** JavaScript values used by the selector *)

(** A JavaScript number, as far as this file needs it: the result of
    [parseInt] is NaN, an integer or an infinity. [Int z] stands for the
    Number with the integer value [z]. *)
Inductive number : Type :=
| NaN : number
| Int (z : Z) : number
| Infinity (negative : bool) : number.

#[global] Instance number_eq_dec : EqDecision number.
Proof. solve_decision. Defined.

(** Truthiness of a number: NaN and 0 are falsy. *)
Definition number_truthy (n : number) : bool :=
  match n with
  | NaN => false
  | Int z => negb (z =? 0)%Z
  | Infinity _ => true
  end.

(** Truthiness of a string: only the empty string is falsy. *)
Definition string_truthy (s : string) : bool :=
  match s with
  | EmptyString => false
  | String _ _ => true
  end.

(** Truthiness of an optional string ([undefined] is falsy). *)
Definition opt_string_truthy (o : option string) : bool :=
  match o with
  | Some s => string_truthy s
  | None => false
  end.

(** [a || ''] on an optional string: the empty string replaces a falsy
    left operand. *)
Definition or_empty (o : option string) : string :=
  match o with
  | Some s => if string_truthy s then s else EmptyString
  | None => EmptyString
  end.

(** Strict equality [===] on strings. *)
Definition str_eqb (a b : string) : bool := bool_decide (a = b).

(** ** Characters and [parseInt(_, 10)] *)

Definition digit_value (c : ascii) : option Z :=
  match c with
  | "0"%char => Some 0%Z
  | "1"%char => Some 1%Z
  | "2"%char => Some 2%Z
  | "3"%char => Some 3%Z
  | "4"%char => Some 4%Z
  | "5"%char => Some 5%Z
  | "6"%char => Some 6%Z
  | "7"%char => Some 7%Z
  | "8"%char => Some 8%Z
  | "9"%char => Some 9%Z
  | _ => None
  end.

(** The class [\d]. *)
Definition is_digit (c : ascii) : bool :=
  match digit_value c with
  | Some _ => true
  | None => false
  end.

(** White space skipped by [parseInt]: TAB, LF, VT, FF, CR, SP, NBSP. *)
Definition is_white (c : ascii) : bool :=
  let n := nat_of_ascii c in
  (Nat.leb 9 n && Nat.leb n 13) || Nat.eqb n 32 || Nat.eqb n 160.

Fixpoint skip_white (s : string) : string :=
  match s with
  | String c s' => if is_white c then skip_white s' else s
  | EmptyString => s
  end.

(** The longest prefix of decimal digits, read as an integer, most
    significant digit first; [None] when the prefix is empty. *)
Fixpoint read_digits (acc : option Z) (s : string) : option Z :=
  match s with
  | String c s' =>
      match digit_value c with
      | Some d => read_digits (Some (10 * default 0%Z acc + d)%Z) s'
      | None => acc
      end
  | EmptyString => acc
  end.

(** The safe integers: those of magnitude below 2^53. *)
Definition is_safe_integer (z : Z) : bool := (Z.abs z <? 9007199254740992)%Z.

(** The Number value of a mathematical integer [m >= 0]: [m] itself below
    2^53, and from there the nearest integer with a significand of 53
    bits, ties to the even significand; [None] from 2^1024, where the
    value is infinite. *)
Definition to_double (m : Z) : option Z :=
  if (m <? 9007199254740992)%Z then Some m
  else
    let e := (Z.log2 m - 52)%Z in
    let q := Z.shiftr m e in
    let r := (m - Z.shiftl q e)%Z in
    let half := Z.shiftl 1 (e - 1) in
    let q' :=
      if (r <? half)%Z then q
      else if (half <? r)%Z then (q + 1)%Z
      else if Z.even q then q else (q + 1)%Z in
    let v := Z.shiftl q' e in
    if (v <? Z.shiftl 1 1024)%Z then Some v else None.

(** The Number [sign * m] for a sign [1] or [-1] and [m >= 0]. *)
Definition number_of_magnitude (sign m : Z) : number :=
  match to_double m with
  | Some v => Int (sign * v)
  | None => Infinity (sign <? 0)%Z
  end.

(** [parseInt(s, 10)]: skip white space, take an optional sign, read the
    longest run of digits and give its Number value; NaN when there is no
    digit. *)
Definition parseInt (s : string) : number :=
  let s1 := skip_white s in
  let '(sign, s2) :=
    match s1 with
    | String "-"%char r => ((-1)%Z, r)
    | String "+"%char r => (1%Z, r)
    | _ => (1%Z, s1)
    end in
  match read_digits None s2 with
  | Some m => number_of_magnitude sign m
  | None => NaN
  end.

(** ** The regular expression [/\D+(\d+)/]

    A backtracking matcher for this one pattern, as [RegExp.prototype.exec]
    runs it: the start position moves left to right, [\D+] and [\d+] are
    greedy, and a shorter [\D+] is tried when the rest fails. The result
    is capture group 1. *)

(** [(\d+)] at the head of [s]: the longest non-empty run of digits. *)
Fixpoint digit_run (s : string) : string :=
  match s with
  | String c s' => if is_digit c then String c (digit_run s') else EmptyString
  | EmptyString => EmptyString
  end.

Definition digits1 (s : string) : option string :=
  match digit_run s with
  | EmptyString => None
  | g => Some g
  end.

(** [\D*(\d+)] at the head of [s]: take one more non-digit first, and
    fall back to [(\d+)] here when that fails. *)
Fixpoint nondigits_star_digits (s : string) : option string :=
  match s with
  | String c s' =>
      if is_digit c then digits1 s
      else match nondigits_star_digits s' with
           | Some g => Some g
           | None => digits1 s
           end
  | EmptyString => digits1 s
  end.

(** [\D+(\d+)] anchored at the head of [s]. *)
Definition match_here (s : string) : option string :=
  match s with
  | String c s' => if is_digit c then None else nondigits_star_digits s'
  | EmptyString => None
  end.

(** [/\D+(\d+)/.exec(s)]: the match at the leftmost start position;
    the result is [match[1]]. *)
Fixpoint regex_exec (s : string) : option string :=
  match match_here s with
  | Some g => Some g
  | None =>
      match s with
      | String _ s' => regex_exec s'
      | EmptyString => None
      end
  end.

(** ** Data model *)

Module SemVer.
Record t : Type := mk { major : Z; minor : Z; patch : Z }.
End SemVer.

Module PythonInterpreter.
Record t : Type := mk {
  path : string;
  version : option SemVer.t;
  displayName : option string
}.
End PythonInterpreter.

Module IJupyterKernelSpec.
Record t : Type := mk {
  name : string;
  path : option string;
  display_name : option string;
  language : option string
}.
End IJupyterKernelSpec.

(** The [kernelspec] entry of the notebook metadata. *)
Module KernelspecMetadata.
Record t : Type := mk {
  name : string;
  display_name : option string
}.
End KernelspecMetadata.

(** [INotebookMetadataLive]: notebook metadata with an optional live
    kernel id. *)
Module INotebookMetadataLive.
Record t : Type := mk {
  kernelspec : option KernelspecMetadata.t;
  id : option string
}.
End INotebookMetadataLive.

(** A value of type [any] read off the wire: the fields [last_activity]
    and [connections] of a running kernel. *)
Inductive JSValue : Type :=
| VUndefined : JSValue
| VNumber (n : number) : JSValue
| VString (s : string) : JSValue.

(** [Kernel.IModel] as the session list reports it. *)
Module KernelModel.
Record t : Type := mk {
  id : string;
  name : string;
  last_activity : JSValue;
  connections : JSValue
}.
End KernelModel.

(** [Session.IModel]. *)
Module Session.
Record t : Type := mk {
  id : string;
  name : string;
  path : string;
  kernel : KernelModel.t
}.
End Session.

(** A [Date], by its time value (NaN for an invalid date). *)
Definition Date : Type := number.

(** [LiveKernelModel]: the fields spread from the running kernel, the
    optional kernel spec fields, and the three fields the selector adds. *)
Module LiveKernelModel.
Record t : Type := mk {
  id : option string;
  name : string;
  last_activity : JSValue;
  connections : JSValue;
  display_name : option string;
  language : option string;
  lastActivityTime : Date;
  numberOfConnections : number;
  session : Session.t
}.
End LiveKernelModel.

(** [KernelSpecInterpreter], the result of every selection. *)
Module KernelSpecInterpreter.
Record t : Type := mk {
  kernelSpec : option IJupyterKernelSpec.t;
  interpreter : option PythonInterpreter.t;
  kernelModel : option LiveKernelModel.t
}.
(** The object literal [{}]. *)
Definition empty : t := mk None None None.
End KernelSpecInterpreter.

(** [Kernel.IKernelConnection], as the ignore list reads it. *)
Module IKernelConnection.
Record t : Type := mk {
  id : string;
  clientId : string
}.
End IKernelConnection.

(** [IKernelSpecQuickPickItem]: a label and the selection it stands for. *)
Module Selection.
Record t : Type := mk {
  kernelModel : option LiveKernelModel.t;
  kernelSpec : option IJupyterKernelSpec.t;
  interpreter : option PythonInterpreter.t
}.
End Selection.

Module IKernelSpecQuickPickItem.
Record t : Type := mk {
  label : string;
  selection : Selection.t
}.
End IKernelSpecQuickPickItem.

(** ** The scoring loop of [getKernelForRemoteConnection] *)

Section Scoring.
Variable interpreter : option PythonInterpreter.t.
Variable notebookMetadata : option INotebookMetadataLive.t.

(** [spec.path && spec.path.length > 0 && interpreter &&
    spec.path === interpreter.path] *)
Definition pathMatches (spec : IJupyterKernelSpec.t) : bool :=
  match IJupyterKernelSpec.path spec with
  | Some p =>
      string_truthy p && (0 <? String.length p)%nat &&
      match interpreter with
      | Some i => str_eqb p (PythonInterpreter.path i)
      | None => false
      end
  | None => false
  end.

(** [match[1][0]]: the first character of capture group 1. *)
Definition first_char (g : string) : option string :=
  match g with
  | String c _ => Some (String c EmptyString)
  | EmptyString => None
  end.

(** [parseInt] of a value that may be [undefined]. *)
Definition parseInt_opt (o : option string) : number :=
  match o with
  | Some s => parseInt s
  | None => NaN
  end.

(** [nameVersion && nameVersion === major] *)
Definition nameVersionMatches (nameVersion : number) (major : Z) : bool :=
  number_truthy nameVersion && bool_decide (nameVersion = Int major).

(** The version test: the interpreter has a version, the name is not
    empty, the pattern matches, and the first digit of the captured run
    is truthy and equal to the major version. *)
Definition versionMatches (spec : IJupyterKernelSpec.t) : bool :=
  match interpreter with
  | Some i =>
      match PythonInterpreter.version i with
      | Some v =>
          string_truthy (IJupyterKernelSpec.name spec) &&
          match regex_exec (IJupyterKernelSpec.name spec) with
          | Some g =>
              let nameVersion := parseInt_opt (first_char g) in
              nameVersionMatches nameVersion (SemVer.major v)
          | None => false
          end
      | None => false
      end
  | None => false
  end.

(** [notebookMetadata?.kernelspec?.display_name] *)
Definition declared_display_name : option string :=
  match notebookMetadata with
  | Some md =>
      match INotebookMetadataLive.kernelspec md with
      | Some ks => KernelspecMetadata.display_name ks
      | None => None
      end
  | None => None
  end.

(** [spec.display_name && spec.display_name === declared] *)
Definition displayNameMatches (spec : IJupyterKernelSpec.t) : bool :=
  opt_string_truthy (IJupyterKernelSpec.display_name spec) &&
  bool_decide (IJupyterKernelSpec.display_name spec = declared_display_name).

(** The body of the loop up to the comparison: the score of [specs[i]]. *)
Definition scoreSpec (spec : option IJupyterKernelSpec.t) : Z :=
  let score := 0%Z in
  match spec with
  | Some sp =>
      let score := if pathMatches sp then (score + 8)%Z else score in
      let score := if versionMatches sp then (score + 4)%Z else score in
      let score := if displayNameMatches sp then (score + 16)%Z else score in
      score
  | None => score
  end.

(** One iteration: [if (score > bestScore) { bestMatch = spec; bestScore = score; }] *)
Definition scoreStep (best : option IJupyterKernelSpec.t * Z)
    (spec : option IJupyterKernelSpec.t) : option IJupyterKernelSpec.t * Z :=
  let '(bestMatch, bestScore) := best in
  let score := scoreSpec spec in
  if (bestScore <? score)%Z then (spec, score) else (bestMatch, bestScore).

(** The loop over the indices of [specs], from [bestMatch = undefined]
    and [bestScore = -1]; an absent list runs no iteration. *)
Definition scoreLoop (specs : option (list (option IJupyterKernelSpec.t)))
    : option IJupyterKernelSpec.t * Z :=
  match specs with
  | Some l => fold_left scoreStep l (None, (-1)%Z)
  | None => (None, (-1)%Z)
  end.
End Scoring.

(** ** [getKernelForRemoteConnection] *)

(** The decimal numeral of an integer, which is what [toString] gives
    for a safe integer. *)
Definition Z_toString (z : Z) : string :=
  NilZero.string_of_int (Z.to_int z).

(** [n.toString()]. For an integer that is not safe the digits are the
    shortest ones that identify the Number, in exponent notation from
    1e21; they are left to [toString_unsafe]. *)
Definition number_toString (toString_unsafe : Z -> string) (n : number) : string :=
  match n with
  | NaN => "NaN"%string
  | Int z => if is_safe_integer z then Z_toString z else toString_unsafe z
  | Infinity false => "Infinity"%string
  | Infinity true => "-Infinity"%string
  end.

Definition JS_truthy (v : JSValue) : bool :=
  match v with
  | VUndefined => false
  | VNumber n => number_truthy n
  | VString s => string_truthy s
  end.

(** [v.toString()] for the values the live kernel carries. *)
Definition JS_toString (toString_unsafe : Z -> string) (v : JSValue) : string :=
  match v with
  | VUndefined => "undefined"%string
  | VNumber n => number_toString toString_unsafe n
  | VString s => s
  end.

Section Remote.
(** [Date.parse], [Number.prototype.toString] on the integers that are
    not safe, and the clock read by [new Date()]. *)
Variable Date_parse : string -> number.
Variable toString_unsafe : Z -> string.
Variable now : Date.

Definition lastActivityTime_of (liveKernel : KernelModel.t) : Date :=
  if JS_truthy (KernelModel.last_activity liveKernel)
  then Date_parse (JS_toString toString_unsafe (KernelModel.last_activity liveKernel))
  else now.

Definition numberOfConnections_of (liveKernel : KernelModel.t) : number :=
  if JS_truthy (KernelModel.connections liveKernel)
  then parseInt (JS_toString toString_unsafe (KernelModel.connections liveKernel))
  else Int 0.

(** [{ ...session.kernel, lastActivityTime, numberOfConnections, session }] *)
Definition liveKernelModel_of (session : Session.t) : LiveKernelModel.t :=
  let liveKernel := Session.kernel session in
  LiveKernelModel.mk
    (Some (KernelModel.id liveKernel))
    (KernelModel.name liveKernel)
    (KernelModel.last_activity liveKernel)
    (KernelModel.connections liveKernel)
    None None
    (lastActivityTime_of liveKernel)
    (numberOfConnections_of liveKernel)
    session.

(** [sessions?.find((s) => s.kernel.id === notebookMetadata?.id)] *)
Definition findSession (sessions : option (list Session.t)) (id : string)
    : option Session.t :=
  match sessions with
  | Some l =>
      List.find (fun s => str_eqb (KernelModel.id (Session.kernel s)) id) l
  | None => None
  end.

(** The live branch: taken when the metadata carries a truthy id and a
    running session has it. *)
Definition liveSessionFor (sessions : option (list Session.t))
    (notebookMetadata : option INotebookMetadataLive.t) : option Session.t :=
  match notebookMetadata with
  | Some md =>
      match INotebookMetadataLive.id md with
      | Some id => if string_truthy id then findSession sessions id else None
      | None => None
      end
  | None => None
  end.

(** The body of [getKernelForRemoteConnection] after the three fetches
    ([interpreter], [specs], [sessions]) have resolved. *)
Definition getKernelForRemoteConnection
    (interpreter : option PythonInterpreter.t)
    (specs : option (list (option IJupyterKernelSpec.t)))
    (sessions : option (list Session.t))
    (notebookMetadata : option INotebookMetadataLive.t)
    : KernelSpecInterpreter.t :=
  match liveSessionFor sessions notebookMetadata with
  | Some session =>
      KernelSpecInterpreter.mk None interpreter
        (Some (liveKernelModel_of session))
  | None =>
      let '(bestMatch, _) := scoreLoop interpreter notebookMetadata specs in
      KernelSpecInterpreter.mk bestMatch interpreter None
  end.
End Remote.

(** ** The ignore list and the suggestion filter *)

(** [kernelIdsToHide], a [Set<string>]. The two methods below are the
    state transitions of that field. *)
Definition addKernelToIgnoreList (kernel : IKernelConnection.t)
    (kernelIdsToHide : gset string) : gset string :=
  let s1 := {[ IKernelConnection.id kernel ]} ∪ kernelIdsToHide in
  {[ IKernelConnection.clientId kernel ]} ∪ s1.

Definition removeKernelFromIgnoreList (kernel : IKernelConnection.t)
    (kernelIdsToHide : gset string) : gset string :=
  let s1 := kernelIdsToHide ∖ {[ IKernelConnection.id kernel ]} in
  s1 ∖ {[ IKernelConnection.clientId kernel ]}.

(** [item.selection.kernelModel?.id] *)
Definition kernelModel_id (item : IKernelSpecQuickPickItem.t) : option string :=
  match Selection.kernelModel (IKernelSpecQuickPickItem.selection item) with
  | Some km => LiveKernelModel.id km
  | None => None
  end.

(** [item.selection.kernelModel?.id || ''] *)
Definition suggestion_identity (item : IKernelSpecQuickPickItem.t) : string :=
  or_empty (kernelModel_id item).

(** [suggestions.filter((item) => !this.kernelIdsToHide.has(...))] *)
Definition filterSuggestions (kernelIdsToHide : gset string)
    (suggestions : list IKernelSpecQuickPickItem.t)
    : list IKernelSpecQuickPickItem.t :=
  filter (fun item => suggestion_identity item ∉ kernelIdsToHide) suggestions.

(** ** Collaborators, events and the monad of the asynchronous methods *)

Inductive ConnectionType : Type := raw | jupyter | noConnection.

Inductive Telemetry : Type :=
| SelectRemoteJupyterKernel
| SelectLocalJupyterKernel
| SwitchToInterpreterAsKernel
| SwitchToExistingKernel (language : string)
| UseInterpreterAsKernel
| KernelRegisterFailed.

(** The two localized notifications of [useInterpreterAsKernel], applied
    to the display name of the kernel that was not found. *)
Inductive Message : Type :=
| fallbackToUseActiveInterpeterAsKernel (displayName : string)
| fallBackToRegisterAndUseActiveInterpeterAsKernel (displayName : string).

(** What the selector does to the outside, in program order. Fire and
    forget calls are recorded when they are issued. *)
Inductive Event : Type :=
| EvTelemetry (t : Telemetry)
| EvAreDependenciesInstalled (interpreter : PythonInterpreter.t)
| EvFindMatchingKernelSpec (interpreter : PythonInterpreter.t)
| EvFindMatchingInterpreter (k : IJupyterKernelSpec.t + LiveKernelModel.t)
| EvUpdateKernelEnvironment (interpreter : option PythonInterpreter.t)
    (kernelSpec : IJupyterKernelSpec.t)
| EvRegisterKernel (interpreter : PythonInterpreter.t) (disableUI : option bool)
| EvShowInformationMessage (m : Message)
| EvShowQuickPick (suggestions : list IKernelSpecQuickPickItem.t)
    (placeHolder : string)
| EvGetKernelSelectionsForLocalSession (type : ConnectionType)
| EvGetKernelSelectionsForRemoteSession.

Definition is_registerKernel (e : Event) : bool :=
  match e with
  | EvRegisterKernel _ _ => true
  | _ => false
  end.

(** Number of calls to [kernelService.registerKernel] in a trace. *)
Definition registerKernel_calls (tr : list Event) : nat :=
  length (List.filter is_registerKernel tr).

Section Selector.
(** The type of thrown values. *)
Variable Error : Type.

(** Modelled from the spec: the injected services, which live in other
    modules, by the answers their interfaces give (section 6 of the
    specification): each call returns its answer, and [registerKernel]
    alone is specified to fail. [KnownNotebookLanguages],
    [createDefaultKernelSpec] and the localized picker title are constants
    of other modules. *)
Record Collaborators : Type := {
  areDependenciesInstalled : PythonInterpreter.t -> bool;
  findMatchingKernelSpec : PythonInterpreter.t -> option IJupyterKernelSpec.t;
  findMatchingInterpreter :
    IJupyterKernelSpec.t + LiveKernelModel.t -> option PythonInterpreter.t;
  registerKernel :
    PythonInterpreter.t -> option bool -> Error + option IJupyterKernelSpec.t;
  showQuickPick :
    list IKernelSpecQuickPickItem.t -> string -> option IKernelSpecQuickPickItem.t;
  getKernelSelectionsForLocalSession :
    ConnectionType -> list IKernelSpecQuickPickItem.t;
  getKernelSelectionsForRemoteSession : list IKernelSpecQuickPickItem.t;
  createDefaultKernelSpec : option string -> IJupyterKernelSpec.t;
  KnownNotebookLanguages : list string;
  selectKernelTitle : string
}.

Variable C : Collaborators.

(** A computation appends to the trace and returns or throws. *)
Definition M (A : Type) : Type := list Event -> (Error + A) * list Event.

Definition ret {A} (a : A) : M A := fun tr => (inr a, tr).

Definition bind {A B} (m : M A) (k : A -> M B) : M B :=
  fun tr =>
    match m tr with
    | (inr a, tr') => k a tr'
    | (inl e, tr') => (inl e, tr')
    end.

Definition throw {A} (e : Error) : M A := fun tr => (inl e, tr).

(** [try { m } catch (e) { h e }] *)
Definition tryCatch {A} (m : M A) (h : Error -> M A) : M A :=
  fun tr =>
    match m tr with
    | (inr a, tr') => (inr a, tr')
    | (inl e, tr') => h e tr'
    end.

Definition emit (e : Event) : M unit := fun tr => (inr tt, tr ++ [e]).

(** A call that answers [r] and leaves the event [e]. *)
Definition call {A} (e : Event) (r : Error + A) : M A :=
  fun tr => (r, tr ++ [e]).

#[local] Instance M_ret : MRet M := @ret.
#[local] Instance M_bind : MBind M := fun A B k m => bind m k.

Definition sendTelemetryEvent (t : Telemetry) : M unit := emit (EvTelemetry t).

(** [when c m] is [if (c) { m }]. *)
Definition when (c : bool) (m : M unit) : M unit := if c then m else ret tt.

(** [d && !disableUI]: the notification is due. *)
Definition shouldNotify (displayNameOfKernelNotFound : option string)
    (disableUI : option bool) : bool :=
  opt_string_truthy displayNameOfKernelNotFound && negb (default false disableUI).

(** ASCII and Latin-1 [toLowerCase]. *)
Definition char_toLowerCase (c : ascii) : ascii :=
  let n := nat_of_ascii c in
  if (Nat.leb 65 n && Nat.leb n 90)
     || (Nat.leb 192 n && Nat.leb n 222 && negb (Nat.eqb n 215))
  then ascii_of_nat (n + 32) else c.

Fixpoint toLowerCase (s : string) : string :=
  match s with
  | String c s' => String (char_toLowerCase c) (toLowerCase s')
  | EmptyString => EmptyString
  end.

Definition computeLanguage (language : option string) : string :=
  match language with
  | Some l =>
      if string_truthy l &&
         bool_decide (toLowerCase l ∈ KnownNotebookLanguages C)
      then l else "unknown"%string
  | None => "unknown"%string
  end.

(** [useInterpreterAndDefaultKernel] *)
Definition useInterpreterAndDefaultKernel (interpreter : PythonInterpreter.t)
    : M KernelSpecInterpreter.t :=
  let kernelSpec :=
    createDefaultKernelSpec C (PythonInterpreter.displayName interpreter) in
  ret (KernelSpecInterpreter.mk (Some kernelSpec) (Some interpreter) None).

(** [useInterpreterAsKernel]. The arguments [resource], [session] and
    [cancelToken] are only handed on to the collaborators, and the two
    log lines leave no event. *)
Definition useInterpreterAsKernel
    (interpreter : PythonInterpreter.t) (type : ConnectionType)
    (displayNameOfKernelNotFound : option string) (disableUI : option bool)
    : M KernelSpecInterpreter.t :=
  let register : M KernelSpecInterpreter.t :=
    kernelSpec ←
      tryCatch
        (call (EvRegisterKernel interpreter disableUI)
              (registerKernel C interpreter disableUI))
        (fun e => sendTelemetryEvent KernelRegisterFailed;; throw e);
    when (shouldNotify displayNameOfKernelNotFound disableUI)
      (emit (EvShowInformationMessage
         (fallBackToRegisterAndUseActiveInterpeterAsKernel
            (or_empty displayNameOfKernelNotFound))));;
    emit (EvGetKernelSelectionsForLocalSession type);;
    ret (KernelSpecInterpreter.mk kernelSpec (Some interpreter) None) in
  installed ←
    call (EvAreDependenciesInstalled interpreter)
         (inr (areDependenciesInstalled C interpreter));
  if installed : bool then
    kernelSpec ←
      call (EvFindMatchingKernelSpec interpreter)
           (inr (findMatchingKernelSpec C interpreter));
    match kernelSpec with
    | Some ks =>
        emit (EvUpdateKernelEnvironment (Some interpreter) ks);;
        when (shouldNotify displayNameOfKernelNotFound disableUI)
          (emit (EvShowInformationMessage
             (fallbackToUseActiveInterpeterAsKernel
                (or_empty displayNameOfKernelNotFound))));;
        sendTelemetryEvent UseInterpreterAsKernel;;
        ret (KernelSpecInterpreter.mk (Some ks) (Some interpreter) None)
    | None => register
    end
  else register.

(** The [placeHolder] of the picker:
    [selectKernel() + (current ? ` (current: ${current})` : '')] *)
Definition placeHolderFor (currentKernelDisplayName : option string) : string :=
  (selectKernelTitle C ++
   (if opt_string_truthy currentKernelDisplayName
    then " (current: " ++ or_empty currentKernelDisplayName ++ ")"
    else EmptyString))%string.

(** [selectKernel] *)
Definition selectKernel (type : ConnectionType) (telemetryEvent : Telemetry)
    (suggestions : list IKernelSpecQuickPickItem.t)
    (currentKernelDisplayName : option string)
    : M KernelSpecInterpreter.t :=
  let placeHolder := placeHolderFor currentKernelDisplayName in
  sendTelemetryEvent telemetryEvent;;
  selection ←
    call (EvShowQuickPick suggestions placeHolder)
         (inr (showQuickPick C suggestions placeHolder));
  match selection with
  | None => ret KernelSpecInterpreter.empty
  | Some item =>
      let sel := IKernelSpecQuickPickItem.selection item in
      match Selection.interpreter sel, type with
      | Some i, jupyter =>
          sendTelemetryEvent SwitchToInterpreterAsKernel;;
          useInterpreterAsKernel i type None (Some false)
      | Some i, raw => useInterpreterAndDefaultKernel i
      | _, _ =>
          match Selection.kernelModel sel with
          | Some km =>
              sendTelemetryEvent
                (SwitchToExistingKernel
                   (computeLanguage (LiveKernelModel.language km)));;
              interpreter ←
                call (EvFindMatchingInterpreter (inr km))
                     (inr (findMatchingInterpreter C (inr km)));
              ret (KernelSpecInterpreter.mk
                     (Selection.kernelSpec sel) interpreter (Some km))
          | None =>
              match Selection.kernelSpec sel with
              | Some ks =>
                  sendTelemetryEvent
                    (SwitchToExistingKernel
                       (computeLanguage (IJupyterKernelSpec.language ks)));;
                  interpreter ←
                    call (EvFindMatchingInterpreter (inl ks))
                         (inr (findMatchingInterpreter C (inl ks)));
                  emit (EvUpdateKernelEnvironment interpreter ks);;
                  ret (KernelSpecInterpreter.mk (Some ks) interpreter None)
              | None => ret KernelSpecInterpreter.empty
              end
          end
      end
  end.

(** [selectRemoteKernel] *)
Definition selectRemoteKernel (kernelIdsToHide : gset string)
    (currentKernelDisplayName : option string) : M KernelSpecInterpreter.t :=
  suggestions ←
    call EvGetKernelSelectionsForRemoteSession
         (inr (getKernelSelectionsForRemoteSession C));
  let suggestions := filterSuggestions kernelIdsToHide suggestions in
  selectKernel jupyter SelectRemoteJupyterKernel suggestions
    currentKernelDisplayName.

(** [selectLocalKernel] *)
Definition selectLocalKernel (kernelIdsToHide : gset string)
    (type : ConnectionType) (currentKernelDisplayName : option string)
    : M KernelSpecInterpreter.t :=
  suggestions ←
    call (EvGetKernelSelectionsForLocalSession type)
         (inr (getKernelSelectionsForLocalSession C type));
  let suggestions := filterSuggestions kernelIdsToHide suggestions in
  selectKernel type SelectLocalJupyterKernel suggestions
    currentKernelDisplayName.
End Selector.

Arguments ret {Error A} _ _.
Arguments throw {Error A} _ _.
Arguments areDependenciesInstalled {Error} _ _.
Arguments findMatchingKernelSpec {Error} _ _.
Arguments findMatchingInterpreter {Error} _ _.
Arguments registerKernel {Error} _ _ _.
Arguments showQuickPick {Error} _ _ _.
Arguments getKernelSelectionsForLocalSession {Error} _ _.
Arguments getKernelSelectionsForRemoteSession {Error} _.
Arguments createDefaultKernelSpec {Error} _ _.
Arguments KnownNotebookLanguages {Error} _.
Arguments selectKernelTitle {Error} _.
Arguments placeHolderFor {Error} _ _.
Arguments computeLanguage {Error} _ _.
Arguments useInterpreterAndDefaultKernel {Error} _ _ _.
Arguments useInterpreterAsKernel {Error} _ _ _ _ _ _.
Arguments selectKernel {Error} _ _ _ _ _ _.
Arguments selectRemoteKernel {Error} _ _ _ _.
Arguments selectLocalKernel {Error} _ _ _ _ _.

(** ** Auxiliary notions for the properties *)

(** A captured group is never empty and starts with a digit. *)
Definition starts_with_digit (g : string) : Prop :=
  exists c r, g = String c r /\ is_digit c = true.

(** The pattern read without backtracking: drop the leading digits, then a
    non-empty run of non-digits, then the longest run of digits. *)
Fixpoint skip_digits (s : string) : string :=
  match s with
  | String c s' => if is_digit c then skip_digits s' else s
  | EmptyString => s
  end.

Fixpoint skip_nondigits (s : string) : string :=
  match s with
  | String c s' => if is_digit c then s else skip_nondigits s'
  | EmptyString => s
  end.

Definition first_digit_group (s : string) : option string :=
  match skip_digits s with
  | String _ r => digits1 (skip_nondigits r)
  | EmptyString => None
  end.

(** Sample inputs. *)
Definition interpreter_with_major (m : Z) : PythonInterpreter.t :=
  PythonInterpreter.mk "/usr/bin/python" (Some (SemVer.mk m 0 0)) None.

Definition spec_named (n : string) : IJupyterKernelSpec.t :=
  IJupyterKernelSpec.mk n None None None.

(** [first_best l i b]: [b] is the entry of [l] at index [i], no entry
    scores higher, and every entry before it scores lower. *)
Definition first_best (interpreter : option PythonInterpreter.t)
    (notebookMetadata : option INotebookMetadataLive.t)
    (l : list (option IJupyterKernelSpec.t)) (i : nat)
    (b : option IJupyterKernelSpec.t) : Prop :=
  let score := scoreSpec interpreter notebookMetadata in
  l !! i = Some b /\
  (forall j s, l !! j = Some s -> (score s <= score b)%Z) /\
  (forall j s, (j < i)%nat -> l !! j = Some s -> (score s < score b)%Z).

Definition interpreter39 : PythonInterpreter.t :=
  PythonInterpreter.mk "/usr/bin/python3.9" (Some (SemVer.mk 3 9 0)) None.

Definition metadata_Py3 : INotebookMetadataLive.t :=
  INotebookMetadataLive.mk (Some (KernelspecMetadata.mk "python3" (Some "Py3"%string))) None.

(** Candidate A of the scenario: path and version digit match. *)
Definition specA : IJupyterKernelSpec.t :=
  IJupyterKernelSpec.mk "python38" (Some "/usr/bin/python3.9"%string) None None.

(** Candidate B of the scenario: the declared display name. *)
Definition specB : IJupyterKernelSpec.t :=
  IJupyterKernelSpec.mk "other" None (Some "Py3"%string) None.

(** A candidate that matches on path, version digit and display name. *)
Definition spec_all_three : IJupyterKernelSpec.t :=
  IJupyterKernelSpec.mk "python3" (Some "/usr/bin/python3.9"%string)
    (Some "Py3"%string) None.

(** A candidate that earns nothing against [interpreter39]. *)
Definition specR : IJupyterKernelSpec.t :=
  IJupyterKernelSpec.mk "ir" (Some "/usr/bin/R"%string) (Some "R"%string) None.

(** Two running sessions on the kernel [k-1] and one on [k-2]. *)
Definition kernel1 : KernelModel.t :=
  KernelModel.mk "k-1" "python3" (VString "2020-06-01T10:00:00Z") (VNumber (Int 2)).

Definition kernel2 : KernelModel.t :=
  KernelModel.mk "k-2" "python3" VUndefined VUndefined.

Definition kernel_unparsable : KernelModel.t :=
  KernelModel.mk "k-3" "python3" VUndefined (VString "many").

Definition session1 : Session.t := Session.mk "s-1" "a.ipynb" "a.ipynb" kernel1.
Definition session2 : Session.t := Session.mk "s-2" "b.ipynb" "b.ipynb" kernel2.
Definition session1' : Session.t := Session.mk "s-3" "c.ipynb" "c.ipynb" kernel1.
Definition session3 : Session.t := Session.mk "s-4" "d.ipynb" "d.ipynb" kernel_unparsable.

Definition metadata_live (id : string) : INotebookMetadataLive.t :=
  INotebookMetadataLive.mk (Some (KernelspecMetadata.mk "python3" (Some "Py3"%string)))
    (Some id).

(** Value of a decimal numeral read after the integer [acc]; the numeral
    side of [read_digits]. *)
Fixpoint uint_value (acc : Z) (d : Decimal.uint) : Z :=
  match d with
  | Decimal.Nil => acc
  | Decimal.D0 d => uint_value (10 * acc + 0) d
  | Decimal.D1 d => uint_value (10 * acc + 1) d
  | Decimal.D2 d => uint_value (10 * acc + 2) d
  | Decimal.D3 d => uint_value (10 * acc + 3) d
  | Decimal.D4 d => uint_value (10 * acc + 4) d
  | Decimal.D5 d => uint_value (10 * acc + 5) d
  | Decimal.D6 d => uint_value (10 * acc + 6) d
  | Decimal.D7 d => uint_value (10 * acc + 7) d
  | Decimal.D8 d => uint_value (10 * acc + 8) d
  | Decimal.D9 d => uint_value (10 * acc + 9) d
  end.

(** A fixed [Date.parse] and clock for the examples. *)
Definition sample_Date_parse (s : string) : number :=
  if bool_decide (s = "2020-06-01T10:00:00Z"%string) then Int 1591005600000 else NaN.

Definition sample_now : Date := Int 1600000000000.

(** A [toString] for the examples: 10^21 prints as the runtime prints it. *)
Definition sample_toString (z : Z) : string :=
  if (z =? 10 ^ 21)%Z then "1e+21"%string else Z_toString z.

(** A kernel that reports the connection count 1e21. *)
Definition kernel_huge : KernelModel.t :=
  KernelModel.mk "k-4" "python3" VUndefined (VNumber (Int (10 ^ 21))).

Definition session4 : Session.t := Session.mk "s-5" "e.ipynb" "e.ipynb" kernel_huge.

(** Sample suggestions and kernels for the ignore list. *)
Definition live_model (id : option string) : LiveKernelModel.t :=
  LiveKernelModel.mk id "python3" VUndefined VUndefined None None
    (Int 0) (Int 0) session1.

Definition item_live (id : string) : IKernelSpecQuickPickItem.t :=
  IKernelSpecQuickPickItem.mk id (Selection.mk (Some (live_model (Some id))) None None).

Definition item_spec : IKernelSpecQuickPickItem.t :=
  IKernelSpecQuickPickItem.mk "Python 3" (Selection.mk None (Some specA) None).

Definition kernel_a_b : IKernelConnection.t := IKernelConnection.mk "a" "b".

(** Sample collaborators: the dependency check answers [installed], the
    search for a kernel spec answers [found], registration answers
    [registered], and the picker returns [picked]. *)
Definition sample_collaborators (installed : bool)
    (found : option IJupyterKernelSpec.t)
    (registered : string + option IJupyterKernelSpec.t)
    (picked : option IKernelSpecQuickPickItem.t) : Collaborators string :=
  {| areDependenciesInstalled := fun _ => installed;
     findMatchingKernelSpec := fun _ => found;
     findMatchingInterpreter := fun _ => Some interpreter39;
     registerKernel := fun _ _ => registered;
     showQuickPick := fun _ _ => picked;
     getKernelSelectionsForLocalSession := fun _ => [item_live "abc"; item_live "def"];
     getKernelSelectionsForRemoteSession := [item_live "abc"; item_live "def"];
     createDefaultKernelSpec := fun n => spec_named (default "python3"%string n);
     KnownNotebookLanguages := ["python"%string; "julia"%string];
     selectKernelTitle := "Select a Kernel" |}.

(** ** The local connection methods *)

(** [IEventNamePropertyMapping[Telemetry.FindKernelForLocalConnection]] *)
Module TelemetryProps.
Record t : Type := mk {
  kernelSpecFound : bool;
  interpreterFound : bool;
  promptedToSelect : bool
}.
End TelemetryProps.

(** [INotebookProviderConnection], as [selectJupyterKernel] reads it. *)
Module Connection.
Record t : Type := mk {
  localLaunch : option bool;
  type : ConnectionType
}.
End Connection.

(** The events of the local connection methods: those of the selector,
    and the calls and log lines that only these methods make. *)
Inductive LocalEvent : Type :=
| EvSelector (e : Event)
| EvGetActiveInterpreter
| EvFindMatchingKernelSpecFor (kernelspec : KernelspecMetadata.t)
| EvSearchAndRegisterKernel (interpreter : PythonInterpreter.t)
    (disableUI : option bool)
| EvFindKernelSpec (kernelspec : option KernelspecMetadata.t)
    (cancelToken : option bool)
| EvShowErrorMessage (displayName : string)
| EvGetSettings
| EvCreateSession (connection : Connection.t)
| EvTraceError
| EvUseExistingKernel
| EvFindKernelForLocalConnection (props : TelemetryProps.t).

Definition is_prompt (e : LocalEvent) : bool :=
  match e with
  | EvSelector (EvShowQuickPick _ _) => true
  | EvShowErrorMessage _ => true
  | _ => false
  end.

Definition is_registration (e : LocalEvent) : bool :=
  match e with
  | EvSelector (EvRegisterKernel _ _) => true
  | EvSearchAndRegisterKernel _ _ => true
  | _ => false
  end.

(** [a || b] on optional strings. *)
Definition js_or (a b : option string) : option string :=
  if opt_string_truthy a then a else b.

(** [notebookMetadata?.kernelspec] *)
Definition metadata_kernelspec (notebookMetadata : option INotebookMetadataLive.t)
    : option KernelspecMetadata.t :=
  match notebookMetadata with
  | Some md => INotebookMetadataLive.kernelspec md
  | None => None
  end.

(** [kernelSpec?.display_name] and [kernelSpec?.name] on a kernel spec or
    a live kernel model. *)
Definition kernel_display_name
    (k : option (IJupyterKernelSpec.t + LiveKernelModel.t)) : option string :=
  match k with
  | Some (inl ks) => IJupyterKernelSpec.display_name ks
  | Some (inr km) => LiveKernelModel.display_name km
  | None => None
  end.

Definition kernel_name
    (k : option (IJupyterKernelSpec.t + LiveKernelModel.t)) : option string :=
  match k with
  | Some (inl ks) => Some (IJupyterKernelSpec.name ks)
  | Some (inr km) => Some (LiveKernelModel.name km)
  | None => None
  end.

(** [!cancelToken?.isCancellationRequested], on the flag of the token as
    it stands when it is read. *)
Definition notCancelled (cancelToken : option bool) : bool :=
  negb (default false cancelToken).

Section LocalSelector.
Variable Error : Type.
Variable C : Collaborators Error.

(** Modelled from the spec: the further services the local connection
    methods call, by the answers their interfaces give (section 6 of the
    specification), the two button labels of the error prompt, the
    configured server URI and the constant [Settings.JupyterServerLocalLaunch].
    The two services of the raw connection answer on the cancellation
    token they are handed as well. *)
Record LocalCollaborators : Type := {
  getActiveInterpreter : option PythonInterpreter.t;
  findMatchingKernelSpecFor : KernelspecMetadata.t -> option IJupyterKernelSpec.t;
  searchAndRegisterKernel :
    PythonInterpreter.t -> option bool -> option IJupyterKernelSpec.t;
  findKernelSpec :
    option KernelspecMetadata.t -> option bool -> option IJupyterKernelSpec.t;
  findMatchingInterpreterWithToken :
    IJupyterKernelSpec.t -> option bool -> option PythonInterpreter.t;
  showErrorMessage : string -> option string;
  selectDifferentKernel : string;
  cancel : string;
  jupyterServerURI : string;
  JupyterServerLocalLaunch : string
}.

Variable L : LocalCollaborators.

(** A computation of the local methods, over the wider trace. *)
Definition ML (A : Type) : Type :=
  list LocalEvent -> (Error + A) * list LocalEvent.

Definition retL {A} (a : A) : ML A := fun tr => (inr a, tr).

Definition bindL {A B} (m : ML A) (k : A -> ML B) : ML B :=
  fun tr =>
    match m tr with
    | (inr a, tr') => k a tr'
    | (inl e, tr') => (inl e, tr')
    end.

Definition emitL (e : LocalEvent) : ML unit := fun tr => (inr tt, tr ++ [e]).

(** A call that cannot fail: it answers [a] and leaves the event [e]. *)
Definition callL {A} (e : LocalEvent) (a : A) : ML A :=
  fun tr => (inr a, tr ++ [e]).

(** A method of the selector run inside a local method: its events are
    appended in order. *)
Definition liftM {A} (m : M Error A) : ML A :=
  fun tr => let '(r, evs) := m [] in (r, tr ++ map EvSelector evs).

#[local] Instance ML_ret : MRet ML := @retL.
#[local] Instance ML_bind : MBind ML := fun A B k m => bindL m k.

(** [selectLocalJupyterKernel] *)
Definition selectLocalJupyterKernel (kernelIdsToHide : gset string)
    (type : ConnectionType) (currentKernelDisplayName : option string)
    : ML KernelSpecInterpreter.t :=
  liftM (selectLocalKernel C kernelIdsToHide type currentKernelDisplayName).

(** [selectRemoteJupyterKernel] *)
Definition selectRemoteJupyterKernel (kernelIdsToHide : gset string)
    (connInfo : Connection.t) (currentKernelDisplayName : option string)
    : ML KernelSpecInterpreter.t :=
  emitL (EvCreateSession connInfo);;
  liftM (selectRemoteKernel C kernelIdsToHide currentKernelDisplayName).

(** [askForLocalKernel] *)
Definition askForLocalKernel (kernelIdsToHide : gset string)
    (type : ConnectionType)
    (kernelSpec : option (IJupyterKernelSpec.t + LiveKernelModel.t))
    : ML (option KernelSpecInterpreter.t) :=
  let displayName :=
    or_empty (js_or (kernel_display_name kernelSpec) (kernel_name kernelSpec)) in
  let selectKernel := selectDifferentKernel L in
  selection ←
    callL (EvShowErrorMessage displayName) (showErrorMessage L displayName);
  if bool_decide (selection = Some selectKernel) then
    r ← selectLocalJupyterKernel kernelIdsToHide type
          (js_or (kernel_display_name kernelSpec) (kernel_name kernelSpec));
    mret (Some r)
  else mret None.

(** [connection?.localLaunch ??
     settings.datascience.jupyterServerURI.toLowerCase() === Settings.JupyterServerLocalLaunch] *)
Definition isLocalConnection (connection : option Connection.t) : bool :=
  match connection ≫= Connection.localLaunch with
  | Some b => b
  | None =>
      bool_decide (toLowerCase (jupyterServerURI L) = JupyterServerLocalLaunch L)
  end.

(** [selectJupyterKernel] *)
Definition selectJupyterKernel (kernelIdsToHide : gset string)
    (connection : option Connection.t) (type : ConnectionType)
    (currentKernelDisplayName : option string)
    : ML (option KernelSpecInterpreter.t) :=
  emitL EvGetSettings;;
  if isLocalConnection connection then
    kernel ← selectLocalJupyterKernel kernelIdsToHide
               (default type (Connection.type <$> connection))
               currentKernelDisplayName;
    mret (Some kernel)
  else
    match connection with
    | Some c =>
        match Connection.type c with
        | jupyter =>
            kernel ← selectRemoteJupyterKernel kernelIdsToHide c
                       currentKernelDisplayName;
            mret (Some kernel)
        | _ => mret None
        end
    | None => mret None
    end.

(** [getKernelForLocalJupyterConnection]. The [telemetryProps] object of
    the caller is threaded through. *)
Definition getKernelForLocalJupyterConnection (kernelIdsToHide : gset string)
    (telemetryProps : TelemetryProps.t)
    (notebookMetadata : option INotebookMetadataLive.t)
    (disableUI : option bool) (cancelToken : option bool)
    : ML (KernelSpecInterpreter.t * TelemetryProps.t) :=
  match metadata_kernelspec notebookMetadata with
  | Some kernelspec =>
      found ←
        callL (EvFindMatchingKernelSpecFor kernelspec)
              (findMatchingKernelSpecFor L kernelspec);
      match found with
      | Some ks =>
          interpreter ←
            callL (EvSelector (EvFindMatchingInterpreter (inl ks)))
                  (findMatchingInterpreter C (inl ks));
          emitL EvUseExistingKernel;;
          emitL (EvSelector (EvUpdateKernelEnvironment interpreter ks));;
          mret (KernelSpecInterpreter.mk (Some ks) interpreter None, telemetryProps)
      | None =>
          if notCancelled cancelToken then
            activeInterpreter ←
              callL EvGetActiveInterpreter (getActiveInterpreter L);
            match activeInterpreter with
            | Some i =>
                selection ←
                  liftM (useInterpreterAsKernel C i jupyter
                           (KernelspecMetadata.display_name kernelspec) disableUI);
                mret (selection, telemetryProps)
            | None =>
                let telemetryProps :=
                  TelemetryProps.mk
                    (TelemetryProps.kernelSpecFound telemetryProps)
                    (TelemetryProps.interpreterFound telemetryProps)
                    true in
                selection ← liftM (selectLocalKernel C kernelIdsToHide jupyter None);
                mret (selection, telemetryProps)
            end
          else mret (KernelSpecInterpreter.empty, telemetryProps)
      end
  | None =>
      if notCancelled cancelToken then
        activeInterpreter ←
          callL EvGetActiveInterpreter (getActiveInterpreter L);
        match activeInterpreter with
        | Some i =>
            kernelSpec ←
              callL (EvSearchAndRegisterKernel i disableUI)
                    (searchAndRegisterKernel L i disableUI);
            mret (KernelSpecInterpreter.mk kernelSpec (Some i) None, telemetryProps)
        | None => mret (KernelSpecInterpreter.empty, telemetryProps)
        end
      else mret (KernelSpecInterpreter.empty, telemetryProps)
  end.

(** [getKernelForLocalRawConnection] *)
Definition getKernelForLocalRawConnection
    (notebookMetadata : option INotebookMetadataLive.t)
    (cancelToken : option bool)
    : ML KernelSpecInterpreter.t :=
  kernelSpec ←
    callL (EvFindKernelSpec (metadata_kernelspec notebookMetadata) cancelToken)
          (findKernelSpec L (metadata_kernelspec notebookMetadata) cancelToken);
  match kernelSpec with
  | Some ks =>
      interpreter ←
        callL (EvSelector (EvFindMatchingInterpreter (inl ks)))
              (findMatchingInterpreterWithToken L ks cancelToken);
      mret (KernelSpecInterpreter.mk (Some ks) interpreter None)
  | None => mret KernelSpecInterpreter.empty
  end.

(** [getKernelForLocalConnection]. The progress decorator and the elapsed
    time of the stop watch leave no event. *)
Definition getKernelForLocalConnection (kernelIdsToHide : gset string)
    (type : ConnectionType)
    (notebookMetadata : option INotebookMetadataLive.t)
    (disableUI : option bool) (cancelToken : option bool)
    : ML KernelSpecInterpreter.t :=
  let telemetryProps := TelemetryProps.mk false false false in
  emitL (EvSelector (EvGetKernelSelectionsForLocalSession type));;
  '(selection, telemetryProps) ←
    match type with
    | jupyter =>
        getKernelForLocalJupyterConnection kernelIdsToHide telemetryProps
          notebookMetadata disableUI cancelToken
    | raw =>
        selection ← getKernelForLocalRawConnection notebookMetadata cancelToken;
        mret (selection, telemetryProps)
    | noConnection => mret (KernelSpecInterpreter.empty, telemetryProps)
    end;
  (if bool_decide (KernelSpecInterpreter.kernelSpec selection = None)
   then emitL EvTraceError else mret tt);;
  let telemetryProps :=
    TelemetryProps.mk
      (bool_decide (KernelSpecInterpreter.kernelSpec selection <> None))
      (bool_decide (KernelSpecInterpreter.interpreter selection <> None))
      (TelemetryProps.promptedToSelect telemetryProps) in
  emitL (EvFindKernelForLocalConnection telemetryProps);;
  mret selection.
End LocalSelector.

Arguments liftM {Error A} _ _.
Arguments selectLocalJupyterKernel {Error} _ _ _ _ _.
Arguments selectRemoteJupyterKernel {Error} _ _ _ _ _.
Arguments askForLocalKernel {Error} _ _ _ _ _ _.
Arguments selectJupyterKernel {Error} _ _ _ _ _ _ _.
Arguments getKernelForLocalJupyterConnection {Error} _ _ _ _ _ _ _ _.
Arguments getKernelForLocalRawConnection _ _ _ _.
Arguments getKernelForLocalConnection {Error} _ _ _ _ _ _ _ _.

(** ** Further notions for the properties *)

(** Every character of [s] satisfies [p]. *)
Fixpoint string_forall (p : ascii -> bool) (s : string) : bool :=
  match s with
  | String c s' => p c && string_forall p s'
  | EmptyString => true
  end.

Definition is_nondigit (c : ascii) : bool := negb (is_digit c).

(** [s] is empty or starts with a character that is not a digit. *)
Definition no_leading_digit (s : string) : bool :=
  match s with
  | String c _ => is_nondigit c
  | EmptyString => true
  end.

(** A computation of the selector only appends to the trace, and what it
    appends and returns does not depend on the trace before. *)
Definition appends {Error A : Type} (m : M Error A) : Prop :=
  forall tr, m tr = (fst (m []), tr ++ snd (m [])).

Definition is_informationMessage (e : Event) : bool :=
  match e with
  | EvShowInformationMessage _ => true
  | _ => false
  end.

Definition is_updateKernelEnvironment (e : Event) : bool :=
  match e with
  | EvUpdateKernelEnvironment _ _ => true
  | _ => false
  end.

Definition is_prewarm (e : Event) : bool :=
  match e with
  | EvGetKernelSelectionsForLocalSession _ => true
  | _ => false
  end.

(** Number of events of a kind in a trace. *)
Definition count_events {E : Type} (p : E -> bool) (tr : list E) : nat :=
  length (List.filter p tr).

(** Sample local collaborators: [active] is the active interpreter,
    [declared] the answer of the searches for a declared kernel spec, and
    [answer] the button chosen in the error prompt. *)
Definition sample_local (active : option PythonInterpreter.t)
    (declared : option IJupyterKernelSpec.t) (answer : option string)
    : LocalCollaborators :=
  {| getActiveInterpreter := active;
     findMatchingKernelSpecFor := fun _ => declared;
     searchAndRegisterKernel := fun _ _ => Some specB;
     findKernelSpec := fun _ _ => declared;
     findMatchingInterpreterWithToken := fun _ _ => Some interpreter39;
     showErrorMessage := fun _ => answer;
     selectDifferentKernel := "Select a different Kernel";
     cancel := "Cancel";
     jupyterServerURI := "http://server:8888";
     JupyterServerLocalLaunch := "local" |}.

Definition kernel_c_d : IKernelConnection.t := IKernelConnection.mk "c" "d".

Definition kernel_no_clientId : IKernelConnection.t :=
  IKernelConnection.mk "e" EmptyString.

(** Sample picker entries. *)
Definition item_interpreter : IKernelSpecQuickPickItem.t :=
  IKernelSpecQuickPickItem.mk "Python 3.9" (Selection.mk None None (Some interpreter39)).

Definition item_live_with_spec : IKernelSpecQuickPickItem.t :=
  IKernelSpecQuickPickItem.mk "live"
    (Selection.mk (Some (live_model (Some "k-1"%string))) (Some specA) None).

(** Sample local collaborators with the configured server URI [uri]. *)
Definition sample_local_with_uri (uri : string) (answer : option string)
    : LocalCollaborators :=
  {| getActiveInterpreter := None;
     findMatchingKernelSpecFor := fun _ => None;
     searchAndRegisterKernel := fun _ _ => None;
     findKernelSpec := fun _ _ => None;
     findMatchingInterpreterWithToken := fun _ _ => None;
     showErrorMessage := fun _ => answer;
     selectDifferentKernel := "Select a different Kernel";
     cancel := "Cancel";
     jupyterServerURI := uri;
     JupyterServerLocalLaunch := "local" |}.

(** * Properties *)

(** ** Truthiness *)

Lemma string_truthy_ne s : string_truthy s = true <-> s <> EmptyString.
Proof. destruct s; simpl; split; congruence. Qed.

(** ** [parseInt] and the regular expression *)

Lemma digit_value_bounds c d : digit_value c = Some d -> (0 <= d <= 9)%Z.
Proof.
  destruct c as [[] [] [] [] [] [] [] []]; simpl; intros H;
    try discriminate; injection H as <-; lia.
Qed.

Lemma parseInt_one_digit c d :
  digit_value c = Some d -> parseInt (String c EmptyString) = Int d.
Proof.
  destruct c as [[] [] [] [] [] [] [] []]; simpl; intros H;
    try discriminate; injection H as <-; reflexivity.
Qed.

Lemma is_digit_value c : is_digit c = true -> exists d, digit_value c = Some d.
Proof.
  unfold is_digit. destruct (digit_value c) as [d|]; [eauto | discriminate].
Qed.

Lemma digits1_starts s g : digits1 s = Some g -> starts_with_digit g.
Proof.
  unfold digits1. destruct s as [|c s]; simpl; [discriminate|].
  destruct (is_digit c) eqn:Hc; [|discriminate].
  intros [= <-]. exists c, (digit_run s). auto.
Qed.

Lemma nondigits_star_digits_starts s g :
  nondigits_star_digits s = Some g -> starts_with_digit g.
Proof.
  induction s as [|c s IH]; simpl.
  - apply digits1_starts.
  - destruct (is_digit c) eqn:Hc.
    + apply (digits1_starts (String c s)).
    + destruct (nondigits_star_digits s) as [g'|].
      * intros [= <-]. auto.
      * apply (digits1_starts (String c s)).
Qed.

Lemma match_here_starts s g : match_here s = Some g -> starts_with_digit g.
Proof.
  destruct s as [|c s]; simpl; [discriminate|].
  destruct (is_digit c); [discriminate|]. apply nondigits_star_digits_starts.
Qed.

Lemma regex_exec_starts s g : regex_exec s = Some g -> starts_with_digit g.
Proof.
  induction s as [|c s IH]; simpl.
  - discriminate.
  - destruct (is_digit c).
    + exact IH.
    + destruct (nondigits_star_digits s) as [g'|] eqn:Hm.
      * intros [= <-]. eauto using nondigits_star_digits_starts.
      * exact IH.
Qed.

Lemma regex_exec_truthy s g : regex_exec s = Some g -> string_truthy s = true.
Proof. destruct s; [discriminate | reflexivity]. Qed.

(** [parseInt(match[1][0], 10)] is the value of the first digit. *)
Lemma nameVersion_first_digit c r d :
  digit_value c = Some d ->
  parseInt_opt (first_char (String c r)) = Int d.
Proof. intros H. simpl. now apply parseInt_one_digit. Qed.

Lemma nameVersionMatches_spec d major :
  nameVersionMatches (Int d) major = true <-> d <> 0%Z /\ d = major.
Proof.
  unfold nameVersionMatches. simpl.
  rewrite andb_true_iff, negb_true_iff, Z.eqb_neq, bool_decide_eq_true.
  split; intros [H1 H2]; split; congruence.
Qed.

Lemma digits1_nondigit c s : is_digit c = false -> digits1 (String c s) = None.
Proof. intros H. unfold digits1. simpl. now rewrite H. Qed.

Lemma digits1_digit c s :
  is_digit c = true -> digits1 (String c s) = Some (String c (digit_run s)).
Proof. intros H. unfold digits1. simpl. now rewrite H. Qed.

Lemma nondigits_star_digits_scan s :
  nondigits_star_digits s = digits1 (skip_nondigits s).
Proof.
  induction s as [|c s IH]; simpl; [reflexivity|].
  destruct (is_digit c) eqn:Hc; [reflexivity|].
  rewrite IH. destruct (digits1 (skip_nondigits s)); [reflexivity|].
  now apply digits1_nondigit.
Qed.

Lemma first_digit_group_none s :
  digits1 (skip_nondigits s) = None -> first_digit_group s = None.
Proof.
  destruct s as [|c s]; [reflexivity|].
  unfold first_digit_group. simpl.
  destruct (is_digit c) eqn:Hc; [|tauto].
  now rewrite digits1_digit.
Qed.

(** The backtracking matcher finds exactly the group of the scan. *)
Lemma regex_exec_scan s : regex_exec s = first_digit_group s.
Proof.
  induction s as [|c s IH]; [reflexivity|].
  simpl. unfold first_digit_group. simpl.
  destruct (is_digit c) eqn:Hc.
  - exact IH.
  - rewrite nondigits_star_digits_scan.
    destruct (digits1 (skip_nondigits s)) eqn:Hg; [reflexivity|].
    rewrite IH. now apply first_digit_group_none.
Qed.

Lemma skip_digits_app pre s :
  string_forall is_digit pre = true ->
  skip_digits (pre ++ s)%string = skip_digits s.
Proof.
  induction pre as [|c pre IH]; simpl; [reflexivity|].
  intros H. apply andb_true_iff in H as [Hc Hpre]. rewrite Hc. now apply IH.
Qed.

Lemma skip_nondigits_app nd s :
  string_forall is_nondigit nd = true ->
  skip_nondigits (nd ++ s)%string = skip_nondigits s.
Proof.
  induction nd as [|c nd IH]; simpl; [reflexivity|].
  intros H. apply andb_true_iff in H as [Hc Hnd].
  unfold is_nondigit in Hc. apply negb_true_iff in Hc. rewrite Hc. now apply IH.
Qed.

Lemma digit_run_app ds rest :
  string_forall is_digit ds = true -> no_leading_digit rest = true ->
  digit_run (ds ++ rest)%string = ds.
Proof.
  intros Hds Hrest. induction ds as [|c ds IH]; simpl.
  - destruct rest as [|c r]; [reflexivity|]. simpl in Hrest.
    unfold is_nondigit in Hrest. apply negb_true_iff in Hrest.
    simpl. now rewrite Hrest.
  - simpl in Hds. apply andb_true_iff in Hds as [Hc Hds]. rewrite Hc.
    f_equal. now apply IH.
Qed.

Lemma skip_digits_all s : string_forall is_digit s = true -> skip_digits s = EmptyString.
Proof.
  induction s as [|c s IH]; simpl; [reflexivity|].
  intros H. apply andb_true_iff in H as [Hc Hs]. rewrite Hc. now apply IH.
Qed.

Lemma skip_nondigits_all s :
  string_forall is_nondigit s = true -> skip_nondigits s = EmptyString.
Proof.
  induction s as [|c s IH]; simpl; [reflexivity|].
  intros H. apply andb_true_iff in H as [Hc Hs].
  unfold is_nondigit in Hc. apply negb_true_iff in Hc. rewrite Hc. now apply IH.
Qed.







(** ** The version contribution (C4, C10) *)

Section VersionScore.
Variable i : PythonInterpreter.t.
Variable v : SemVer.t.
Hypothesis Hversion : PythonInterpreter.version i = Some v.

Lemma versionMatches_group sp g :
  regex_exec (IJupyterKernelSpec.name sp) = Some g ->
  versionMatches (Some i) sp =
  nameVersionMatches (parseInt_opt (first_char g)) (SemVer.major v).
Proof using Hversion.
  intros Hg. unfold versionMatches. rewrite Hversion, Hg.
  now rewrite (regex_exec_truthy _ _ Hg).
Qed.

Lemma versionMatches_first_digit sp g :
  regex_exec (IJupyterKernelSpec.name sp) = Some g ->
  versionMatches (Some i) sp = true <->
  exists c r d, g = String c r /\ digit_value c = Some d /\
                d <> 0%Z /\ d = SemVer.major v.
Proof using Hversion.
  intros Hg. rewrite (versionMatches_group _ _ Hg).
  destruct (regex_exec_starts _ _ Hg) as (c & r & -> & Hc).
  destruct (is_digit_value _ Hc) as [d Hd].
  rewrite (nameVersion_first_digit _ _ _ Hd), nameVersionMatches_spec.
  split.
  - intros [? ?]. exists c, r, d. auto.
  - intros (c' & r' & d' & [= <- <-] & Hd' & Hnz & Hmaj).
    rewrite Hd in Hd'. injection Hd' as <-. auto.
Qed.
End VersionScore.

(** C4, as stated, fails: the name python0 matches the pattern, its first
    digit 0 equals the major version 0, and the version test is false. *)
Lemma version_first_digit_zero_counterexample :
  regex_exec (IJupyterKernelSpec.name (spec_named "python0")) = Some "0"%string /\
  parseInt_opt (first_char "0") = Int (SemVer.major (SemVer.mk 0 0 0)) /\
  versionMatches (Some (interpreter_with_major 0)) (spec_named "python0") = false.
Proof. repeat split. Qed.

(** C4 (amended): for an interpreter with a version and a candidate whose
    name matches non-digits followed by digits, the version test succeeds
    exactly when the first digit of the captured run is not 0 and equals
    the major version. python38 passes for major 3; python10 fails for
    major 10 and passes for major 1. *)
Theorem version_contribution_first_digit :
  (forall i v sp g,
      PythonInterpreter.version i = Some v ->
      regex_exec (IJupyterKernelSpec.name sp) = Some g ->
      (versionMatches (Some i) sp = true <->
       exists c r d, g = String c r /\ digit_value c = Some d /\
                     d <> 0%Z /\ d = SemVer.major v)) /\
  versionMatches (Some (interpreter_with_major 3)) (spec_named "python38") = true /\
  versionMatches (Some (interpreter_with_major 10)) (spec_named "python10") = false /\
  versionMatches (Some (interpreter_with_major 1)) (spec_named "python10") = true.
Proof.
  split; [|repeat split].
  intros i v sp g Hv Hg. now apply versionMatches_first_digit.
Qed.

Lemma version_contribution_first_digit_witness :
  versionMatches (Some (interpreter_with_major 3)) (spec_named "python38") = true <->
  exists c r d, "38"%string = String c r /\ digit_value c = Some d /\
                d <> 0%Z /\ d = 3%Z.
Proof.
  exact (proj1 version_contribution_first_digit
           (interpreter_with_major 3) (SemVer.mk 3 0 0) (spec_named "python38")
           "38"%string eq_refl eq_refl).
Defined.

(** C10: a candidate whose captured digit run starts with 0 never gets
    the version contribution, whatever the interpreter, also for a major
    version 0; its score is made of the two other contributions only. *)
Theorem version_leading_zero_never_matches :
  forall interpreter notebookMetadata sp r,
    regex_exec (IJupyterKernelSpec.name sp) = Some (String "0"%char r) ->
    versionMatches interpreter sp = false /\
    scoreSpec interpreter notebookMetadata (Some sp) =
      ((if pathMatches interpreter sp then 8 else 0) +
       (if displayNameMatches notebookMetadata sp then 16 else 0))%Z.
Proof.
  intros interpreter md sp r Hg.
  assert (Hv : versionMatches interpreter sp = false).
  { unfold versionMatches.
    destruct interpreter as [i|]; [|reflexivity].
    destruct (PythonInterpreter.version i) as [v|]; [|reflexivity].
    rewrite Hg. simpl. apply andb_false_r. }
  split; [exact Hv|].
  unfold scoreSpec. rewrite Hv.
  destruct (pathMatches interpreter sp), (displayNameMatches md sp); reflexivity.
Qed.

Lemma version_leading_zero_never_matches_witness :
  versionMatches (Some (interpreter_with_major 0)) (spec_named "python0") = false /\
  scoreSpec (Some (interpreter_with_major 0)) None (Some (spec_named "python0")) =
    ((if pathMatches (Some (interpreter_with_major 0)) (spec_named "python0")
      then 8 else 0) +
     (if displayNameMatches None (spec_named "python0") then 16 else 0))%Z.
Proof.
  exact (version_leading_zero_never_matches
           (Some (interpreter_with_major 0)) None (spec_named "python0")
           EmptyString eq_refl).
Defined.

(** ** The scoring loop (C2, C3) *)

Section ScoringFacts.
Variable interpreter : option PythonInterpreter.t.
Variable notebookMetadata : option INotebookMetadataLive.t.

Abbreviation score := (scoreSpec interpreter notebookMetadata).
Abbreviation step := (scoreStep interpreter notebookMetadata).
Abbreviation loop := (scoreLoop interpreter notebookMetadata).

Lemma scoreSpec_additive sp :
  score (Some sp) =
  ((if pathMatches interpreter sp then 8 else 0) +
   (if versionMatches interpreter sp then 4 else 0) +
   (if displayNameMatches notebookMetadata sp then 16 else 0))%Z.
Proof.
  unfold scoreSpec.
  destruct (pathMatches interpreter sp), (versionMatches interpreter sp),
    (displayNameMatches notebookMetadata sp); reflexivity.
Qed.

Lemma scoreSpec_nonneg s : (0 <= score s)%Z.
Proof.
  destruct s as [sp|]; [|simpl; lia].
  rewrite scoreSpec_additive.
  destruct (pathMatches interpreter sp), (versionMatches interpreter sp),
    (displayNameMatches notebookMetadata sp); lia.
Qed.



Lemma scoreLoop_invariant l best bs :
  (fold_left step l (best, bs) = (best, bs) /\
   forall j s, l !! j = Some s -> (score s <= bs)%Z) \/
  (exists i b, first_best interpreter notebookMetadata l i b /\ (bs < score b)%Z /\
               fold_left step l (best, bs) = (b, score b)).
Proof.
  revert best bs. induction l as [|x l IH]; intros best bs.
  - left. split; [reflexivity|]. intros j s Hj. discriminate.
  - simpl. destruct (bs <? score x)%Z eqn:Hlt.
    + apply Z.ltb_lt in Hlt. right.
      destruct (IH x (score x)) as [[Heq Hle] | (i & b & (Hi & Hmax & Hfst) & Hb & Heq)].
      * exists 0%nat, x. repeat split; auto; try lia.
        intros [|j] s Hj; simpl in Hj; [injection Hj as <-; lia | eauto].
      * exists (S i), b. repeat split; auto; try lia.
        -- intros [|j] s Hj; simpl in Hj; [injection Hj as <-; lia | eauto].
        -- intros [|j] s Hlt' Hj; simpl in Hj;
             [injection Hj as <-; lia | apply (Hfst j); [lia|auto]].
    + apply Z.ltb_ge in Hlt.
      destruct (IH best bs) as [[Heq Hle] | (i & b & (Hi & Hmax & Hfst) & Hb & Heq)].
      * left. split; [exact Heq|].
        intros [|j] s Hj; simpl in Hj; [injection Hj as <-; lia | eauto].
      * right. exists (S i), b. repeat split; auto.
        -- intros [|j] s Hj; simpl in Hj; [injection Hj as <-; lia | eauto].
        -- intros [|j] s Hlt' Hj; simpl in Hj;
             [injection Hj as <-; lia | apply (Hfst j); [lia|auto]].
Qed.

(** On a list with at least one entry the loop returns the first entry
    of highest score. *)
Lemma scoreLoop_first_best s l :
  exists i b, first_best interpreter notebookMetadata (s :: l) i b /\ loop (Some (s :: l)) = (b, score b).
Proof.
  unfold scoreLoop.
  destruct (scoreLoop_invariant (s :: l) None (-1)%Z)
    as [[_ Hle] | (i & b & Hfb & _ & Heq)].
  - specialize (Hle 0%nat s eq_refl). pose proof (scoreSpec_nonneg s). lia.
  - eauto.
Qed.

Lemma scoreLoop_empty : loop None = (None, (-1)%Z) /\ loop (Some []) = (None, (-1)%Z).
Proof. split; reflexivity. Qed.

Lemma scoreLoop_all_zero s l :
  Forall (fun x => score x = 0%Z) (s :: l) -> loop (Some (s :: l)) = (s, 0%Z).
Proof.
  intros Hz. destruct (scoreLoop_first_best s l) as (i & b & (Hi & _ & Hfst) & ->).
  rewrite Forall_lookup in Hz.
  destruct i as [|i].
  - simpl in Hi. injection Hi as <-. now rewrite (Hz 0%nat s eq_refl).
  - specialize (Hfst 0%nat s ltac:(lia) eq_refl).
    rewrite (Hz 0%nat s eq_refl), (Hz (S i) b Hi) in Hfst. lia.
Qed.

Lemma scoreLoop_sentinel specs :
  snd (loop specs) = (-1)%Z <-> specs = None \/ specs = Some [].
Proof.
  split.
  - destruct specs as [[|s l]|]; auto.
    destruct (scoreLoop_first_best s l) as (i & b & _ & ->). simpl.
    pose proof (scoreSpec_nonneg b). lia.
  - intros [-> | ->]; reflexivity.
Qed.
End ScoringFacts.

(** Without a live session the result of [getKernelForRemoteConnection]
    is the outcome of the loop together with the active interpreter. *)
Lemma getKernelForRemoteConnection_scoring Date_parse toString_unsafe now interpreter specs
    sessions notebookMetadata :
  liveSessionFor sessions notebookMetadata = None ->
  getKernelForRemoteConnection Date_parse toString_unsafe now interpreter specs sessions
    notebookMetadata
  = KernelSpecInterpreter.mk
      (fst (scoreLoop interpreter notebookMetadata specs)) interpreter None.
Proof.
  intros Hlive. unfold getKernelForRemoteConnection. rewrite Hlive.
  now destruct (scoreLoop interpreter notebookMetadata specs).
Qed.




(** The scenario of the specification: A scores 12, B scores 16, B wins. *)
Example scenario_A_B :
  scoreSpec (Some interpreter39) (Some metadata_Py3) (Some specA) = 12%Z /\
  scoreSpec (Some interpreter39) (Some metadata_Py3) (Some specB) = 16%Z /\
  scoreLoop (Some interpreter39) (Some metadata_Py3) (Some [Some specA; Some specB])
    = (Some specB, 16%Z).
Proof. repeat split. Qed.

(** C2, as stated, fails: on a list of one candidate that earns nothing
    the loop keeps that candidate, with score 0. *)
Lemma no_contribution_counterexample :
  [Some specR] <> [] /\
  Forall (fun x => scoreSpec (Some interpreter39) (Some metadata_Py3) x = 0%Z)
    [Some specR] /\
  scoreLoop (Some interpreter39) (Some metadata_Py3) (Some [Some specR])
    = (Some specR, 0%Z) /\
  scoreLoop (Some interpreter39) (Some metadata_Py3) (Some [Some specR])
    <> (None, (-1)%Z) /\
  KernelSpecInterpreter.kernelSpec
    (getKernelForRemoteConnection sample_Date_parse sample_toString sample_now
       (Some interpreter39) (Some [Some specR]) (Some []) (Some metadata_Py3))
  = Some specR.
Proof.
  split; [discriminate|]. split; [repeat constructor|].
  split; [reflexivity|]. split; [discriminate | reflexivity].
Qed.

(** C2 (amended): when every entry of a list with at least one entry
    scores 0, the loop returns the first entry with score 0; the result is
    none with the score left at -1 exactly when the list is absent or
    empty. *)
Theorem no_contribution_keeps_first :
  forall interpreter notebookMetadata,
    (forall s l,
        Forall (fun x => scoreSpec interpreter notebookMetadata x = 0%Z) (s :: l) ->
        scoreLoop interpreter notebookMetadata (Some (s :: l)) = (s, 0%Z) /\
        forall Date_parse toString_unsafe now sessions,
          liveSessionFor sessions notebookMetadata = None ->
          getKernelForRemoteConnection Date_parse toString_unsafe now interpreter
            (Some (s :: l)) sessions notebookMetadata
          = KernelSpecInterpreter.mk s interpreter None) /\
    scoreLoop interpreter notebookMetadata None = (None, (-1)%Z) /\
    scoreLoop interpreter notebookMetadata (Some []) = (None, (-1)%Z) /\
    (forall specs,
        snd (scoreLoop interpreter notebookMetadata specs) = (-1)%Z <->
        specs = None \/ specs = Some []).
Proof.
  intros interpreter md.
  split.
  { intros s l Hz. pose proof (scoreLoop_all_zero interpreter md s l Hz) as Heq.
    split; [exact Heq|]. intros Date_parse toString_unsafe now sessions Hlive.
    rewrite getKernelForRemoteConnection_scoring by exact Hlive.
    now rewrite Heq. }
  split; [reflexivity|]. split; [reflexivity|].
  apply scoreLoop_sentinel.
Qed.

Lemma no_contribution_keeps_first_witness :
  scoreLoop (Some interpreter39) (Some metadata_Py3) (Some [Some specR; None])
    = (Some specR, 0%Z).
Proof.
  apply (proj1 (no_contribution_keeps_first (Some interpreter39) (Some metadata_Py3))).
  repeat constructor.
Defined.

(** ** The live session branch (C1, C9) *)

Lemma find_first_match {A} (f : A -> bool) (l : list A) :
  Exists (fun x => f x = true) l ->
  exists pre x post,
    l = pre ++ x :: post /\ Forall (fun y => f y = false) pre /\
    f x = true /\ List.find f l = Some x.
Proof.
  induction l as [|a l IH]; intros Hex.
  - inversion Hex.
  - simpl. destruct (f a) eqn:Ha.
    + exists [], a, l. auto.
    + destruct IH as (pre & x & post & -> & Hpre & Hx & Hfind).
      { inversion Hex; subst; [congruence | assumption]. }
      exists (a :: pre), x, post. auto.
Qed.

Section RemoteFacts.
Variable Date_parse : string -> number.
Variable now : Date.

Lemma liveSessionFor_found l md id :
  INotebookMetadataLive.id md = Some id -> id <> EmptyString ->
  Exists (fun s => KernelModel.id (Session.kernel s) = id) l ->
  exists pre session post,
    l = pre ++ session :: post /\
    Forall (fun s => KernelModel.id (Session.kernel s) <> id) pre /\
    KernelModel.id (Session.kernel session) = id /\
    liveSessionFor (Some l) (Some md) = Some session.
Proof.
  intros Hid Hne Hex. unfold liveSessionFor. rewrite Hid.
  apply string_truthy_ne in Hne. rewrite Hne. simpl.
  destruct (find_first_match
              (fun s => str_eqb (KernelModel.id (Session.kernel s)) id) l)
    as (pre & x & post & -> & Hpre & Hx & Hfind).
  { eapply Exists_impl; [exact Hex|]. intros s Hs.
    now apply bool_decide_eq_true. }
  exists pre, x, post. repeat split; auto.
  - eapply Forall_impl; [exact Hpre|]. intros s Hs.
    now apply bool_decide_eq_false in Hs.
  - now apply bool_decide_eq_true in Hx.
Qed.
End RemoteFacts.

(** C1: when the metadata carries a live kernel id (a non-empty string)
    and some running session has a kernel with that id, the result is the
    kernel of the first such session as a live kernel model, together with
    the active interpreter, and no kernel spec: the list of specs has no
    influence on it. *)
Theorem live_session_takes_priority :
  forall Date_parse toString_unsafe now interpreter specs l md id,
    INotebookMetadataLive.id md = Some id -> id <> EmptyString ->
    Exists (fun s => KernelModel.id (Session.kernel s) = id) l ->
    exists pre session post,
      l = pre ++ session :: post /\
      Forall (fun s => KernelModel.id (Session.kernel s) <> id) pre /\
      KernelModel.id (Session.kernel session) = id /\
      getKernelForRemoteConnection Date_parse toString_unsafe now interpreter specs (Some l) (Some md)
      = KernelSpecInterpreter.mk None interpreter
          (Some (liveKernelModel_of Date_parse toString_unsafe now session)) /\
      LiveKernelModel.id (liveKernelModel_of Date_parse toString_unsafe now session) = Some id /\
      LiveKernelModel.name (liveKernelModel_of Date_parse toString_unsafe now session)
      = KernelModel.name (Session.kernel session) /\
      LiveKernelModel.session (liveKernelModel_of Date_parse toString_unsafe now session) = session.
Proof.
  intros Date_parse toString_unsafe now interpreter specs l md id Hid Hne Hex.
  destruct (liveSessionFor_found l md id Hid Hne Hex)
    as (pre & session & post & Hl & Hpre & Hk & Hlive).
  exists pre, session, post. repeat split; auto.
  - unfold getKernelForRemoteConnection. now rewrite Hlive.
  - simpl. now rewrite Hk.
Qed.

Lemma live_session_takes_priority_witness :
  scoreSpec (Some interpreter39) (Some (metadata_live "k-1")) (Some spec_all_three)
  = 28%Z /\
  exists pre session post,
    [session2; session1; session1'] = pre ++ session :: post /\
    Forall (fun s => KernelModel.id (Session.kernel s) <> "k-1"%string) pre /\
    KernelModel.id (Session.kernel session) = "k-1"%string /\
    getKernelForRemoteConnection (fun _ => Int 1591005600000) Z_toString (Int 1600000000000)
      (Some interpreter39) (Some [Some spec_all_three])
      (Some [session2; session1; session1']) (Some (metadata_live "k-1"))
    = KernelSpecInterpreter.mk None (Some interpreter39)
        (Some (liveKernelModel_of (fun _ => Int 1591005600000) Z_toString (Int 1600000000000)
                 session)) /\
    LiveKernelModel.id
      (liveKernelModel_of (fun _ => Int 1591005600000) Z_toString (Int 1600000000000) session)
    = Some "k-1"%string /\
    LiveKernelModel.name
      (liveKernelModel_of (fun _ => Int 1591005600000) Z_toString (Int 1600000000000) session)
    = KernelModel.name (Session.kernel session) /\
    LiveKernelModel.session
      (liveKernelModel_of (fun _ => Int 1591005600000) Z_toString (Int 1600000000000) session)
    = session.
Proof.
  split; [reflexivity|].
  apply (live_session_takes_priority (fun _ => Int 1591005600000) Z_toString (Int 1600000000000)
           (Some interpreter39) (Some [Some spec_all_three])
           [session2; session1; session1'] (metadata_live "k-1") "k-1"%string).
  - reflexivity.
  - discriminate.
  - apply Exists_cons_tl, Exists_cons_hd. reflexivity.
Defined.

(** ** [parseInt] after [toString] *)

Lemma read_digits_uint d acc :
  read_digits (Some acc) (NilEmpty.string_of_uint d) = Some (uint_value acc d).
Proof.
  revert acc. induction d; intros acc; simpl; auto.
Qed.

Lemma read_digits_uint_None d :
  d <> Decimal.Nil ->
  read_digits None (NilEmpty.string_of_uint d) = Some (uint_value 0 d).
Proof.
  destruct d; intros H; try congruence; simpl; apply read_digits_uint.
Qed.

Lemma uint_value_of_lu d d' :
  uint_value (Z.of_N (Unsigned.of_lu d')) d
  = Z.of_N (Unsigned.of_lu (Decimal.revapp d d')).
Proof.
  revert d'. induction d; intros d'; simpl; auto;
    rewrite <- IHd; f_equal; simpl; lia.
Qed.

Lemma uint_value_of_uint d : uint_value 0 d = Z.of_N (Pos.of_uint d).
Proof.
  rewrite Unsigned.of_uint_alt. unfold Decimal.rev.
  now rewrite <- uint_value_of_lu.
Qed.

Lemma uint_value_to_uint p : uint_value 0 (Pos.to_uint p) = Z.pos p.
Proof. now rewrite uint_value_of_uint, Unsigned.of_to. Qed.

Lemma parseInt_numeral d :
  d <> Decimal.Nil ->
  parseInt (NilEmpty.string_of_uint d) = number_of_magnitude 1 (uint_value 0 d) /\
  parseInt (String "-"%char (NilEmpty.string_of_uint d))
  = number_of_magnitude (-1) (uint_value 0 d).
Proof.
  intros Hd. split.
  - destruct d; try congruence; unfold parseInt; simpl;
      rewrite read_digits_uint; reflexivity.
  - unfold parseInt. simpl skip_white. cbv iota beta.
    now rewrite (read_digits_uint_None d Hd).
Qed.

Lemma number_of_magnitude_safe sign m :
  (0 <= m < 9007199254740992)%Z -> number_of_magnitude sign m = Int (sign * m).
Proof.
  intros Hm. unfold number_of_magnitude, to_double.
  destruct (Z.ltb_spec m 9007199254740992); [reflexivity | lia].
Qed.

(** [parseInt(z.toString(), 10)] gives a safe integer [z] back. *)
Lemma parseInt_Z_toString z :
  is_safe_integer z = true -> parseInt (Z_toString z) = Int z.
Proof.
  unfold is_safe_integer. intros Hsafe. apply Z.ltb_lt in Hsafe.
  destruct z as [|p|p]; [reflexivity| |]; unfold Z_toString; simpl Z.to_int;
    pose proof (Unsigned.to_uint_nonnil p) as Hp;
    destruct (parseInt_numeral (Pos.to_uint p) Hp) as [Hpos Hneg].
  - unfold NilZero.string_of_int, NilZero.string_of_uint.
    destruct (Pos.to_uint p) eqn:E; try congruence;
      rewrite Hpos, <- E, uint_value_to_uint,
        number_of_magnitude_safe by (simpl in Hsafe; lia);
      f_equal; lia.
  - unfold NilZero.string_of_int, NilZero.string_of_uint.
    destruct (Pos.to_uint p) eqn:E; try congruence;
      rewrite Hneg, <- E, uint_value_to_uint,
        number_of_magnitude_safe by (simpl in Hsafe; lia);
      f_equal; lia.
Qed.

(** Beyond 2^53 [parseInt] gives the nearest Number: 2^53 + 1 is read as
    2^53 and 2^53 + 3 as 2^53 + 4. *)
Example parseInt_rounds_to_nearest_even :
  parseInt "9007199254740993" = Int 9007199254740992 /\
  parseInt "9007199254740995" = Int 9007199254740996 /\
  parseInt "1e+21" = Int 1.
Proof. repeat split. Qed.

(** C9, as stated, fails: a reported connection count that is present
    and does not parse gives NaN, not 0. *)
Lemma connections_unparsable_counterexample :
  KernelModel.connections (Session.kernel session3) = VString "many" /\
  parseInt "many" = NaN /\
  LiveKernelModel.numberOfConnections
    (liveKernelModel_of sample_Date_parse sample_toString sample_now session3) = NaN /\
  LiveKernelModel.numberOfConnections
    (liveKernelModel_of sample_Date_parse sample_toString sample_now session3) <> Int 0 /\
  KernelSpecInterpreter.kernelModel
    (getKernelForRemoteConnection sample_Date_parse sample_toString sample_now
       (Some interpreter39) (Some []) (Some [session3]) (Some (metadata_live "k-3")))
  = Some (liveKernelModel_of sample_Date_parse sample_toString sample_now session3).
Proof. repeat split. discriminate. Qed.

(** C9 (amended): the last activity time is [Date.parse] of the reported
    time stamp, and the current time when the time stamp is absent or
    falsy; the number of connections is [parseInt] of the string form of
    the reported value: the value itself for a safe integer, [parseInt]
    of what [toString] prints for an integer that is not safe, 0 when the
    value is absent or falsy (0, NaN, the empty string), and NaN when the
    value is present and does not parse. *)
Theorem live_kernel_activity_and_connections :
  forall Date_parse toString_unsafe now session,
    let k := Session.kernel session in
    let km := liveKernelModel_of Date_parse toString_unsafe now session in
    (forall s, KernelModel.last_activity k = VString s -> s <> EmptyString ->
               LiveKernelModel.lastActivityTime km = Date_parse s) /\
    (JS_truthy (KernelModel.last_activity k) = false ->
     LiveKernelModel.lastActivityTime km = now) /\
    (KernelModel.last_activity k = VUndefined ->
     LiveKernelModel.lastActivityTime km = now) /\
    (JS_truthy (KernelModel.connections k) = false ->
     LiveKernelModel.numberOfConnections km = Int 0) /\
    (KernelModel.connections k = VUndefined ->
     LiveKernelModel.numberOfConnections km = Int 0) /\
    (KernelModel.connections k = VNumber (Int 0) \/
     KernelModel.connections k = VNumber NaN \/
     KernelModel.connections k = VString EmptyString ->
     LiveKernelModel.numberOfConnections km = Int 0) /\
    (forall z, KernelModel.connections k = VNumber (Int z) ->
               (Z.abs z < 2 ^ 53)%Z ->
               LiveKernelModel.numberOfConnections km = Int z) /\
    (forall z, KernelModel.connections k = VNumber (Int z) ->
               (2 ^ 53 <= Z.abs z)%Z ->
               LiveKernelModel.numberOfConnections km
               = parseInt (toString_unsafe z)) /\
    (forall s, KernelModel.connections k = VString s -> s <> EmptyString ->
               LiveKernelModel.numberOfConnections km = parseInt s) /\
    (forall s, KernelModel.connections k = VString s -> s <> EmptyString ->
               parseInt s = NaN ->
               LiveKernelModel.numberOfConnections km = NaN).
Proof.
  intros Date_parse toString_unsafe now session k km. subst km. simpl.
  unfold lastActivityTime_of, numberOfConnections_of. fold k.
  repeat split.
  - intros s -> Hs. apply string_truthy_ne in Hs. simpl. now rewrite Hs.
  - intros ->. reflexivity.
  - intros ->. reflexivity.
  - intros ->. reflexivity.
  - intros ->. reflexivity.
  - intros [-> | [-> | ->]]; reflexivity.
  - intros z -> Hz. simpl.
    assert (Hsafe : is_safe_integer z = true)
      by (unfold is_safe_integer; apply Z.ltb_lt; exact Hz).
    destruct (Z.eqb_spec z 0) as [-> | Hnz]; simpl.
    + reflexivity.
    + rewrite Hsafe. now apply parseInt_Z_toString.
  - intros z -> Hz. simpl.
    assert (Hunsafe : is_safe_integer z = false)
      by (unfold is_safe_integer; apply Z.ltb_ge; exact Hz).
    destruct (Z.eqb_spec z 0) as [-> | Hnz]; [simpl in Hz; lia|].
    simpl. now rewrite Hunsafe.
  - intros s -> Hs. apply string_truthy_ne in Hs. simpl. now rewrite Hs.
  - intros s -> Hs Hnan. apply string_truthy_ne in Hs. simpl. now rewrite Hs.
Qed.

Lemma live_kernel_activity_and_connections_witness :
  LiveKernelModel.lastActivityTime
    (liveKernelModel_of sample_Date_parse sample_toString sample_now session1)
  = Int 1591005600000 /\
  LiveKernelModel.numberOfConnections
    (liveKernelModel_of sample_Date_parse sample_toString sample_now session1) = Int 2 /\
  LiveKernelModel.lastActivityTime
    (liveKernelModel_of sample_Date_parse sample_toString sample_now session2)
  = sample_now /\
  LiveKernelModel.numberOfConnections
    (liveKernelModel_of sample_Date_parse sample_toString sample_now session2) = Int 0 /\
  LiveKernelModel.numberOfConnections
    (liveKernelModel_of sample_Date_parse sample_toString sample_now session3) = NaN /\
  LiveKernelModel.numberOfConnections
    (liveKernelModel_of sample_Date_parse sample_toString sample_now session4) = Int 1.
Proof.
  pose proof (live_kernel_activity_and_connections sample_Date_parse
                sample_toString sample_now session1)
    as (H1 & _ & _ & _ & _ & _ & H2 & _).
  pose proof (live_kernel_activity_and_connections sample_Date_parse
                sample_toString sample_now session2)
    as (_ & _ & H3 & _ & H4 & _).
  pose proof (live_kernel_activity_and_connections sample_Date_parse
                sample_toString sample_now session3)
    as (_ & _ & _ & _ & _ & _ & _ & _ & _ & H5).
  pose proof (live_kernel_activity_and_connections sample_Date_parse
                sample_toString sample_now session4)
    as (_ & _ & _ & _ & _ & _ & _ & H6 & _).
  split; [exact (H1 _ eq_refl ltac:(discriminate))|].
  split; [exact (H2 _ eq_refl ltac:(reflexivity))|].
  split; [exact (H3 eq_refl)|].
  split; [exact (H4 eq_refl)|].
  split; [exact (H5 _ eq_refl ltac:(discriminate) eq_refl)|].
  exact (H6 _ eq_refl ltac:(vm_compute; discriminate)).
Defined.

(** ** The suggestion filter and the ignore list (C5, C6) *)

Lemma suggestion_identity_absent item :
  kernelModel_id item = None -> suggestion_identity item = EmptyString.
Proof. unfold suggestion_identity. now intros ->. Qed.

Lemma suggestion_identity_present item id :
  kernelModel_id item = Some id -> suggestion_identity item = id.
Proof.
  unfold suggestion_identity. intros ->. simpl. now destruct id.
Qed.

(** The identity of a suggestion, read off its record fields. *)
Lemma suggestion_identity_fields item :
  suggestion_identity item =
  match Selection.kernelModel (IKernelSpecQuickPickItem.selection item) with
  | Some km =>
      match LiveKernelModel.id km with
      | Some id => id
      | None => EmptyString
      end
  | None => EmptyString
  end.
Proof.
  unfold suggestion_identity, kernelModel_id.
  destruct (Selection.kernelModel (IKernelSpecQuickPickItem.selection item))
    as [km|]; [|reflexivity].
  destruct (LiveKernelModel.id km) as [[|c r]|]; reflexivity.
Qed.

Lemma elem_of_filterSuggestions hide suggestions item :
  item ∈ filterSuggestions hide suggestions <->
  (suggestion_identity item ∉ hide) /\ item ∈ suggestions.
Proof.
  unfold filterSuggestions.
  apply (list_elem_of_filter (fun x => suggestion_identity x ∉ hide)).
Qed.

Lemma filterSuggestions_ext hide hide' suggestions :
  (forall item, item ∈ suggestions ->
     (suggestion_identity item ∈ hide <-> suggestion_identity item ∈ hide')) ->
  filterSuggestions hide suggestions = filterSuggestions hide' suggestions.
Proof.
  unfold filterSuggestions. induction suggestions as [|x l IH]; intros Hext.
  - reflexivity.
  - rewrite !filter_cons.
    assert (Hx := Hext x ltac:(left)).
    rewrite IH by (intros item Hitem; apply Hext; now right).
    destruct (decide (suggestion_identity x ∉ hide)),
             (decide (suggestion_identity x ∉ hide')); tauto.
Qed.

(** C5: the filter returns a subsequence of the suggestions, none of its
    entries has an identity in the ignore list, nothing else is removed,
    and an entry without a live kernel id counts as the empty string; once
    a kernel is on the ignore list no entry with that kernel's id or
    clientId as identity is returned. On the record fields: an entry whose
    live kernel model has the id [id] is returned exactly when it is a
    suggestion and [id] is not on the ignore list, and an entry with no
    live kernel model, or a model without id, exactly when it is a
    suggestion and the empty string is not on the ignore list. Both
    [selectLocalKernel] and [selectRemoteKernel] hand the filtered list to
    [selectKernel]. *)
Theorem filter_hides_ignored_kernels :
  forall (hide : gset string) (suggestions : list IKernelSpecQuickPickItem.t),
    filterSuggestions hide suggestions `sublist_of` suggestions /\
    Forall (fun item => suggestion_identity item ∉ hide)
      (filterSuggestions hide suggestions) /\
    (forall item, item ∈ filterSuggestions hide suggestions <->
                  (suggestion_identity item ∉ hide) /\ item ∈ suggestions) /\
    (forall item, kernelModel_id item = None ->
                  suggestion_identity item = EmptyString) /\
    (forall item id, kernelModel_id item = Some id ->
                     suggestion_identity item = id) /\
    (forall kernel,
        Forall (fun item =>
                  suggestion_identity item <> IKernelConnection.id kernel /\
                  suggestion_identity item <> IKernelConnection.clientId kernel)
          (filterSuggestions (addKernelToIgnoreList kernel hide) suggestions)) /\
    (forall item km id,
        Selection.kernelModel (IKernelSpecQuickPickItem.selection item) = Some km ->
        LiveKernelModel.id km = Some id ->
        (item ∈ filterSuggestions hide suggestions <->
         (id ∉ hide) /\ item ∈ suggestions)) /\
    (forall item,
        Selection.kernelModel (IKernelSpecQuickPickItem.selection item) = None \/
        (exists km,
            Selection.kernelModel (IKernelSpecQuickPickItem.selection item) = Some km /\
            LiveKernelModel.id km = None) ->
        (item ∈ filterSuggestions hide suggestions <->
         (EmptyString ∉ hide) /\ item ∈ suggestions)) /\
    (forall kernel item km id,
        item ∈ filterSuggestions (addKernelToIgnoreList kernel hide) suggestions ->
        Selection.kernelModel (IKernelSpecQuickPickItem.selection item) = Some km ->
        LiveKernelModel.id km = Some id ->
        id <> IKernelConnection.id kernel /\
        id <> IKernelConnection.clientId kernel) /\
    (forall Error (C : Collaborators Error) type current tr,
        selectLocalKernel C hide type current tr =
        selectKernel C type SelectLocalJupyterKernel
          (filterSuggestions hide (getKernelSelectionsForLocalSession C type))
          current (tr ++ [EvGetKernelSelectionsForLocalSession type])) /\
    (forall Error (C : Collaborators Error) current tr,
        selectRemoteKernel C hide current tr =
        selectKernel C jupyter SelectRemoteJupyterKernel
          (filterSuggestions hide (getKernelSelectionsForRemoteSession C))
          current (tr ++ [EvGetKernelSelectionsForRemoteSession])).
Proof.
  intros hide suggestions.
  split; [apply sublist_filter|].
  split.
  { apply Forall_forall. intros item Hitem.
    now apply elem_of_filterSuggestions in Hitem. }
  split; [apply elem_of_filterSuggestions|].
  split; [apply suggestion_identity_absent|].
  split; [apply suggestion_identity_present|].
  split.
  { intros kernel. apply Forall_forall. intros item Hitem.
    apply elem_of_filterSuggestions in Hitem as [Hnot _].
    unfold addKernelToIgnoreList in Hnot. set_solver. }
  split.
  { intros item km id Hkm Hid. rewrite elem_of_filterSuggestions.
    now rewrite suggestion_identity_fields, Hkm, Hid. }
  split.
  { intros item Hnone. rewrite elem_of_filterSuggestions.
    rewrite suggestion_identity_fields.
    destruct Hnone as [-> | (km & -> & ->)]; reflexivity. }
  split.
  { intros kernel item km id Hitem Hkm Hid.
    apply elem_of_filterSuggestions in Hitem as [Hnot _].
    rewrite suggestion_identity_fields, Hkm, Hid in Hnot.
    unfold addKernelToIgnoreList in Hnot. set_solver. }
  split; reflexivity.
Qed.

Lemma filter_hides_ignored_kernels_witness :
  filterSuggestions {[ "abc"%string ]} [item_live "abc"; item_spec; item_live "def"]
    `sublist_of` [item_live "abc"; item_spec; item_live "def"] /\
  item_live "abc"
    ∉ filterSuggestions {[ "abc"%string ]}
        [item_live "abc"; item_spec; item_live "def"] /\
  item_live "def"
    ∈ filterSuggestions {[ "abc"%string ]}
        [item_live "abc"; item_spec; item_live "def"] /\
  item_spec
    ∈ filterSuggestions {[ "abc"%string ]}
        [item_live "abc"; item_spec; item_live "def"].
Proof.
  pose proof (filter_hides_ignored_kernels {[ "abc"%string ]}
                [item_live "abc"; item_spec; item_live "def"])
    as (H1 & _ & _ & _ & _ & _ & Hlive & Hplain & _).
  split; [exact H1|]. split; [|split].
  - intros Hin.
    apply (Hlive (item_live "abc") _ "abc"%string eq_refl eq_refl) in Hin
      as [Hnot _].
    apply Hnot. set_solver.
  - apply (Hlive (item_live "def") _ "def"%string eq_refl eq_refl).
    split; [set_solver|]. apply list_elem_of_further, list_elem_of_further,
      list_elem_of_here.
  - apply (Hplain item_spec (or_introl eq_refl)).
    split; [set_solver|]. apply list_elem_of_further, list_elem_of_here.
Defined.

(** The scenario of the specification: with abc on the ignore list only
    the entry def is left. *)
Example filter_scenario :
  filterSuggestions {[ "abc"%string ]} [item_live "abc"; item_live "def"]
  = [item_live "def"].
Proof. vm_compute. reflexivity. Qed.

(** C6, as stated, fails: when the id of the kernel is already on the
    ignore list, adding the kernel and removing it again takes that id
    off, and an entry that was hidden before is shown after. *)
Lemma add_then_remove_counterexample :
  filterSuggestions {[ "a"%string ]} [item_live "a"] = [] /\
  filterSuggestions
    (removeKernelFromIgnoreList kernel_a_b
       (addKernelToIgnoreList kernel_a_b {[ "a"%string ]}))
    [item_live "a"] = [item_live "a"] /\
  removeKernelFromIgnoreList kernel_a_b
    (addKernelToIgnoreList kernel_a_b {[ "a"%string ]})
  <> ({[ "a"%string ]} : gset string).
Proof.
  split; [vm_compute; reflexivity|].
  split; [vm_compute; reflexivity|].
  unfold removeKernelFromIgnoreList, addKernelToIgnoreList. simpl.
  intros Heq. assert (H : "a"%string ∈ ({[ "a"%string ]} : gset string))
    by set_solver.
  rewrite <- Heq in H. set_solver.
Qed.

(** C6 (amended): adding a kernel twice is adding it once; removing a
    kernel neither of whose ids is on the list changes nothing; adding
    then removing a kernel leaves the list without that kernel's two ids,
    which is the list before, with the same filter output, when neither
    id was on it. *)
Theorem ignore_list_add_remove :
  forall (hide : gset string) (kernel : IKernelConnection.t),
    addKernelToIgnoreList kernel (addKernelToIgnoreList kernel hide)
    = addKernelToIgnoreList kernel hide /\
    (IKernelConnection.id kernel ∉ hide ->
     IKernelConnection.clientId kernel ∉ hide ->
     removeKernelFromIgnoreList kernel hide = hide) /\
    removeKernelFromIgnoreList kernel (addKernelToIgnoreList kernel hide)
    = hide ∖ {[ IKernelConnection.id kernel; IKernelConnection.clientId kernel ]} /\
    (IKernelConnection.id kernel ∉ hide ->
     IKernelConnection.clientId kernel ∉ hide ->
     removeKernelFromIgnoreList kernel (addKernelToIgnoreList kernel hide) = hide /\
     forall suggestions,
       filterSuggestions
         (removeKernelFromIgnoreList kernel (addKernelToIgnoreList kernel hide))
         suggestions
       = filterSuggestions hide suggestions).
Proof.
  intros hide kernel. unfold addKernelToIgnoreList, removeKernelFromIgnoreList.
  cbv zeta.
  split; [set_solver|]. split; [set_solver|]. split; [set_solver|].
  intros Hid Hcid.
  assert (Heq : ({[IKernelConnection.clientId kernel]}
                   ∪ ({[IKernelConnection.id kernel]} ∪ hide))
                  ∖ {[IKernelConnection.id kernel]}
                  ∖ {[IKernelConnection.clientId kernel]} = hide) by set_solver.
  split; [exact Heq|]. intros suggestions. now rewrite Heq.
Qed.

Lemma ignore_list_add_remove_witness :
  removeKernelFromIgnoreList kernel_a_b
    (addKernelToIgnoreList kernel_a_b {[ "c"%string ]})
  = ({[ "c"%string ]} : gset string).
Proof.
  apply (proj1 (proj2 (proj2 (proj2
           (ignore_list_add_remove {[ "c"%string ]} kernel_a_b)))
         ltac:(vm_compute; set_solver) ltac:(vm_compute; set_solver))).
Defined.

(** ** Registration and the picker (C7, C8) *)

Lemma registerKernel_calls_app tr evs :
  registerKernel_calls (tr ++ evs)
  = (registerKernel_calls tr + registerKernel_calls evs)%nat.
Proof.
  unfold registerKernel_calls. now rewrite List.filter_app, length_app.
Qed.

(** Unfolding of the monad. *)
Ltac run_M :=
  unfold mbind, M_bind, bind, call, emit, tryCatch, sendTelemetryEvent,
    when, throw, ret; simpl.

Section SelectorFacts.
Variable Error : Type.
Variable C : Collaborators Error.

(** The path of [useInterpreterAsKernel] that uses an existing spec. *)
Lemma useInterpreterAsKernel_existing interpreter type notFound disableUI tr ks :
  areDependenciesInstalled C interpreter = true ->
  findMatchingKernelSpec C interpreter = Some ks ->
  exists evs,
    useInterpreterAsKernel C interpreter type notFound disableUI tr
    = (inr (KernelSpecInterpreter.mk (Some ks) (Some interpreter) None), tr ++ evs) /\
    registerKernel_calls evs = 0%nat.
Proof.
  intros Hdeps Hfind. unfold useInterpreterAsKernel. run_M.
  rewrite Hdeps, Hfind.
  destruct (shouldNotify notFound disableUI); simpl;
    rewrite <- !app_assoc; eexists; split; reflexivity.
Qed.

(** The path that registers, when registration succeeds. *)
Lemma useInterpreterAsKernel_registers interpreter type notFound disableUI tr ks :
  areDependenciesInstalled C interpreter = false \/
  findMatchingKernelSpec C interpreter = None ->
  registerKernel C interpreter disableUI = inr ks ->
  exists evs,
    useInterpreterAsKernel C interpreter type notFound disableUI tr
    = (inr (KernelSpecInterpreter.mk ks (Some interpreter) None), tr ++ evs) /\
    registerKernel_calls evs = 1%nat /\
    In (EvRegisterKernel interpreter disableUI) evs.
Proof.
  intros Hreach Hreg. unfold useInterpreterAsKernel. run_M. rewrite Hreg.
  destruct (areDependenciesInstalled C interpreter) eqn:Hdeps;
    [destruct Hreach as [? | Hfind]; [discriminate | rewrite Hfind]|];
    destruct (shouldNotify notFound disableUI); simpl;
    rewrite <- !app_assoc; eexists; (split; [reflexivity|]);
    (split; [reflexivity | simpl; tauto]).
Qed.

(** The path that registers, when registration throws. *)
Lemma useInterpreterAsKernel_throws interpreter type notFound disableUI tr e :
  areDependenciesInstalled C interpreter = false \/
  findMatchingKernelSpec C interpreter = None ->
  registerKernel C interpreter disableUI = inl e ->
  exists evs,
    useInterpreterAsKernel C interpreter type notFound disableUI tr
    = (inl e, tr ++ evs) /\
    registerKernel_calls evs = 1%nat /\
    In (EvRegisterKernel interpreter disableUI) evs /\
    In (EvTelemetry KernelRegisterFailed) evs.
Proof.
  intros Hreach Hreg. unfold useInterpreterAsKernel. run_M. rewrite Hreg.
  destruct (areDependenciesInstalled C interpreter) eqn:Hdeps;
    [destruct Hreach as [? | Hfind]; [discriminate | rewrite Hfind]|];
    simpl; rewrite <- !app_assoc; eexists; (split; [reflexivity|]);
    (split; [reflexivity | simpl; tauto]).
Qed.

Lemma selectKernel_cancelled type telemetryEvent suggestions current tr :
  showQuickPick C suggestions (placeHolderFor C current) = None ->
  selectKernel C type telemetryEvent suggestions current tr
  = (inr KernelSpecInterpreter.empty,
     tr ++ [EvTelemetry telemetryEvent;
            EvShowQuickPick suggestions (placeHolderFor C current)]).
Proof.
  intros Hpick. unfold selectKernel. run_M. rewrite Hpick.
  now rewrite <- app_assoc.
Qed.
End SelectorFacts.

(** C7: in [useInterpreterAsKernel], when the dependency check answers
    installed and a matching kernel spec is found, the result is that
    spec with the interpreter and [registerKernel] is not called; when the
    check answers not installed or no spec is found, [registerKernel] is
    called exactly once; when that call throws, the same error reaches the
    caller after that single call. *)
Theorem useInterpreterAsKernel_registration :
  forall Error (C : Collaborators Error) interpreter type notFound disableUI tr,
    (areDependenciesInstalled C interpreter = true ->
     forall ks, findMatchingKernelSpec C interpreter = Some ks ->
       exists evs,
         useInterpreterAsKernel C interpreter type notFound disableUI tr
         = (inr (KernelSpecInterpreter.mk (Some ks) (Some interpreter) None),
            tr ++ evs) /\
         registerKernel_calls evs = 0%nat) /\
    (areDependenciesInstalled C interpreter = false \/
     findMatchingKernelSpec C interpreter = None ->
     exists evs,
       snd (useInterpreterAsKernel C interpreter type notFound disableUI tr)
       = tr ++ evs /\
       registerKernel_calls evs = 1%nat /\
       In (EvRegisterKernel interpreter disableUI) evs) /\
    (areDependenciesInstalled C interpreter = false \/
     findMatchingKernelSpec C interpreter = None ->
     forall e, registerKernel C interpreter disableUI = inl e ->
       exists evs,
         useInterpreterAsKernel C interpreter type notFound disableUI tr
         = (inl e, tr ++ evs) /\
         registerKernel_calls evs = 1%nat) /\
    (areDependenciesInstalled C interpreter = false \/
     findMatchingKernelSpec C interpreter = None ->
     forall ks, registerKernel C interpreter disableUI = inr ks ->
       fst (useInterpreterAsKernel C interpreter type notFound disableUI tr)
       = inr (KernelSpecInterpreter.mk ks (Some interpreter) None)).
Proof.
  intros Error C interpreter type notFound disableUI tr.
  split; [|split; [|split]].
  - intros Hdeps ks Hfind. now apply useInterpreterAsKernel_existing.
  - intros Hreach.
    destruct (registerKernel C interpreter disableUI) as [e|ks] eqn:Hreg.
    + destruct (useInterpreterAsKernel_throws Error C interpreter type notFound
                  disableUI tr e Hreach Hreg) as (evs & -> & Hn & Hin & _).
      exists evs. auto.
    + destruct (useInterpreterAsKernel_registers Error C interpreter type notFound
                  disableUI tr ks Hreach Hreg) as (evs & -> & Hn & Hin).
      exists evs. auto.
  - intros Hreach e Hreg.
    destruct (useInterpreterAsKernel_throws Error C interpreter type notFound
                disableUI tr e Hreach Hreg) as (evs & -> & Hn & _).
    exists evs. auto.
  - intros Hreach ks Hreg.
    destruct (useInterpreterAsKernel_registers Error C interpreter type notFound
                disableUI tr ks Hreach Hreg) as (evs & -> & _).
    reflexivity.
Qed.

Lemma useInterpreterAsKernel_registration_witness :
  (exists evs,
     useInterpreterAsKernel
       (sample_collaborators true (Some specA) (inl "failed"%string) None)
       interpreter39 jupyter (Some "Py3"%string) None []
     = (inr (KernelSpecInterpreter.mk (Some specA) (Some interpreter39) None),
        [] ++ evs) /\
     registerKernel_calls evs = 0%nat) /\
  (exists evs,
     useInterpreterAsKernel
       (sample_collaborators false None (inl "failed"%string) None)
       interpreter39 jupyter (Some "Py3"%string) None []
     = (inl "failed"%string, [] ++ evs) /\
     registerKernel_calls evs = 1%nat).
Proof.
  split.
  - apply (proj1 (useInterpreterAsKernel_registration string
             (sample_collaborators true (Some specA) (inl "failed"%string) None)
             interpreter39 jupyter (Some "Py3"%string) None []));
      reflexivity.
  - apply (proj1 (proj2 (proj2 (useInterpreterAsKernel_registration string
             (sample_collaborators false None (inl "failed"%string) None)
             interpreter39 jupyter (Some "Py3"%string) None []))));
      [left; reflexivity | reflexivity].
Defined.

(** C8: when the picker returns no item, [selectKernel] returns the empty
    result, with no kernel spec, no interpreter and no kernel model, after
    the telemetry event and the picker call and nothing else. *)
Theorem selectKernel_no_selection_is_empty :
  forall Error (C : Collaborators Error) type telemetryEvent suggestions current tr,
    showQuickPick C suggestions (placeHolderFor C current) = None ->
    selectKernel C type telemetryEvent suggestions current tr
    = (inr KernelSpecInterpreter.empty,
       tr ++ [EvTelemetry telemetryEvent;
              EvShowQuickPick suggestions (placeHolderFor C current)]) /\
    KernelSpecInterpreter.kernelSpec KernelSpecInterpreter.empty = None /\
    KernelSpecInterpreter.interpreter KernelSpecInterpreter.empty = None /\
    KernelSpecInterpreter.kernelModel KernelSpecInterpreter.empty = None.
Proof.
  intros Error C type telemetryEvent suggestions current tr Hpick.
  split; [now apply selectKernel_cancelled | repeat split].
Qed.

Lemma selectKernel_no_selection_is_empty_witness :
  fst (selectKernel
         (sample_collaborators true (Some specA) (inr (Some specB)) None)
         jupyter SelectLocalJupyterKernel [item_live "def"; item_spec]
         (Some "Py3"%string) [])
  = inr KernelSpecInterpreter.empty.
Proof.
  rewrite (proj1 (selectKernel_no_selection_is_empty string
             (sample_collaborators true (Some specA) (inr (Some specB)) None)
             jupyter SelectLocalJupyterKernel [item_live "def"; item_spec]
             (Some "Py3"%string) [] eq_refl)).
  reflexivity.
Defined.

(** * Further properties *)

(** ** The ignore list and the filter *)

Lemma filterSuggestions_id_iff hide suggestions :
  filterSuggestions hide suggestions = suggestions <->
  Forall (fun item => suggestion_identity item ∉ hide) suggestions.
Proof.
  unfold filterSuggestions. induction suggestions as [|x l IH].
  - split; [constructor | reflexivity].
  - rewrite filter_cons. destruct (decide (suggestion_identity x ∉ hide)) as [Hx|Hx].
    + split.
      * intros [= Heq]. constructor; [exact Hx | now apply IH].
      * intros Hall. inversion Hall; subst. f_equal. now apply IH.
    + split.
      * intros Heq.
        pose proof (length_filter (fun item => suggestion_identity item ∉ hide) l) as Hlen.
        rewrite Heq in Hlen. simpl in Hlen. lia.
      * intros Hall. inversion Hall; subst. contradiction.
Qed.

(** X1: the filter returns the suggestions unchanged exactly when no
    suggestion has the id of its live kernel model on the ignore list, the
    empty string standing for a missing model or id; in particular the
    list changes as soon as a suggestion has a live kernel id that is on
    the ignore list, and it never changes for the empty ignore list the
    selector starts with. *)
Theorem filter_unchanged_iff_nothing_hidden :
  forall (hide : gset string) (suggestions : list IKernelSpecQuickPickItem.t),
    (filterSuggestions hide suggestions = suggestions <->
     Forall (fun item => suggestion_identity item ∉ hide) suggestions) /\
    (filterSuggestions hide suggestions = suggestions <->
     Forall (fun item =>
               match Selection.kernelModel
                       (IKernelSpecQuickPickItem.selection item) with
               | Some km =>
                   match LiveKernelModel.id km with
                   | Some id => id ∉ hide
                   | None => EmptyString ∉ hide
                   end
               | None => EmptyString ∉ hide
               end) suggestions) /\
    (forall item km id,
        item ∈ suggestions ->
        Selection.kernelModel (IKernelSpecQuickPickItem.selection item) = Some km ->
        LiveKernelModel.id km = Some id -> id ∈ hide ->
        filterSuggestions hide suggestions <> suggestions) /\
    filterSuggestions ∅ suggestions = suggestions.
Proof.
  intros hide suggestions.
  assert (Hfields :
    Forall (fun item => suggestion_identity item ∉ hide) suggestions <->
    Forall (fun item =>
              match Selection.kernelModel
                      (IKernelSpecQuickPickItem.selection item) with
              | Some km =>
                  match LiveKernelModel.id km with
                  | Some id => id ∉ hide
                  | None => EmptyString ∉ hide
                  end
              | None => EmptyString ∉ hide
              end) suggestions).
  { apply Forall_iff. intros item. rewrite suggestion_identity_fields.
    destruct (Selection.kernelModel (IKernelSpecQuickPickItem.selection item))
      as [km|]; [|reflexivity].
    destruct (LiveKernelModel.id km); reflexivity. }
  split; [apply filterSuggestions_id_iff|].
  split; [rewrite <- Hfields; apply filterSuggestions_id_iff|].
  split.
  - intros item km id Hin Hkm Hid Hhide Heq.
    apply filterSuggestions_id_iff in Heq. rewrite Forall_forall in Heq.
    specialize (Heq item Hin).
    rewrite suggestion_identity_fields, Hkm, Hid in Heq. contradiction.
  - apply filterSuggestions_id_iff, Forall_forall. intros item _. set_solver.
Qed.

Lemma filter_unchanged_iff_nothing_hidden_witness :
  filterSuggestions {[ "abc"%string ]} [item_spec; item_live "abc"]
  <> [item_spec; item_live "abc"].
Proof.
  apply (proj1 (proj2 (proj2 (filter_unchanged_iff_nothing_hidden
           {[ "abc"%string ]} [item_spec; item_live "abc"])))
         (item_live "abc") (live_model (Some "abc"%string)) "abc"%string).
  - apply list_elem_of_further, list_elem_of_here.
  - reflexivity.
  - reflexivity.
  - set_solver.
Defined.

(** X2: adding commutes with adding and removing with removing; for two
    kernels that share no id, removing one commutes with adding the other
    and leaves the other hidden. *)
Theorem ignore_list_kernels_commute :
  forall (hide : gset string) (k1 k2 : IKernelConnection.t),
    addKernelToIgnoreList k1 (addKernelToIgnoreList k2 hide)
    = addKernelToIgnoreList k2 (addKernelToIgnoreList k1 hide) /\
    removeKernelFromIgnoreList k1 (removeKernelFromIgnoreList k2 hide)
    = removeKernelFromIgnoreList k2 (removeKernelFromIgnoreList k1 hide) /\
    (IKernelConnection.id k1 <> IKernelConnection.id k2 ->
     IKernelConnection.id k1 <> IKernelConnection.clientId k2 ->
     IKernelConnection.clientId k1 <> IKernelConnection.id k2 ->
     IKernelConnection.clientId k1 <> IKernelConnection.clientId k2 ->
     removeKernelFromIgnoreList k1 (addKernelToIgnoreList k2 hide)
     = addKernelToIgnoreList k2 (removeKernelFromIgnoreList k1 hide) /\
     IKernelConnection.id k2
       ∈ removeKernelFromIgnoreList k1 (addKernelToIgnoreList k2 hide) /\
     IKernelConnection.clientId k2
       ∈ removeKernelFromIgnoreList k1 (addKernelToIgnoreList k2 hide)).
Proof.
  intros hide k1 k2. unfold addKernelToIgnoreList, removeKernelFromIgnoreList.
  cbv zeta. split; [set_solver|]. split; [set_solver|].
  intros H1 H2 H3 H4. split; [set_solver|]. split; set_solver.
Qed.

Lemma ignore_list_kernels_commute_witness :
  removeKernelFromIgnoreList kernel_a_b (addKernelToIgnoreList kernel_c_d ∅)
  = addKernelToIgnoreList kernel_c_d (removeKernelFromIgnoreList kernel_a_b ∅).
Proof.
  apply (proj2 (proj2 (ignore_list_kernels_commute ∅ kernel_a_b kernel_c_d)));
    discriminate.
Defined.

(** X3: a suggestion without a live kernel id is judged by the empty
    string: it is kept whenever the empty string is not on the ignore
    list, and once a kernel with an empty id or clientId has been added
    only suggestions with a non-empty live kernel id are left. *)
Theorem plain_suggestions_follow_empty_string :
  forall (hide : gset string) (suggestions : list IKernelSpecQuickPickItem.t),
    (EmptyString ∉ hide ->
     forall item, item ∈ suggestions -> kernelModel_id item = None ->
                  item ∈ filterSuggestions hide suggestions) /\
    (forall kernel,
        IKernelConnection.id kernel = EmptyString \/
        IKernelConnection.clientId kernel = EmptyString ->
        Forall (fun item => exists id, kernelModel_id item = Some id /\
                                       id <> EmptyString)
          (filterSuggestions (addKernelToIgnoreList kernel hide) suggestions)).
Proof.
  intros hide suggestions. split.
  - intros Hempty item Hin Hnone. apply elem_of_filterSuggestions.
    split; [|exact Hin]. now rewrite (suggestion_identity_absent _ Hnone).
  - intros kernel Hk. apply Forall_forall. intros item Hitem.
    apply elem_of_filterSuggestions in Hitem as [Hnot _].
    assert (Hin : EmptyString ∈ addKernelToIgnoreList kernel hide).
    { unfold addKernelToIgnoreList. destruct Hk as [<- | <-]; set_solver. }
    unfold suggestion_identity in Hnot.
    destruct (kernelModel_id item) as [[|c r]|]; simpl in Hnot;
      [contradiction | | contradiction].
    exists (String c r). split; [reflexivity | discriminate].
Qed.

Lemma plain_suggestions_follow_empty_string_witness :
  item_spec ∈ filterSuggestions {[ "abc"%string ]} [item_live "abc"; item_spec] /\
  Forall (fun item => exists id, kernelModel_id item = Some id /\ id <> EmptyString)
    (filterSuggestions (addKernelToIgnoreList kernel_no_clientId ∅)
       [item_live "abc"; item_spec]).
Proof.
  pose proof (plain_suggestions_follow_empty_string {[ "abc"%string ]}
                [item_live "abc"; item_spec]) as [H1 _].
  pose proof (plain_suggestions_follow_empty_string ∅
                [item_live "abc"; item_spec]) as [_ H2].
  split.
  - apply H1; [set_solver | set_solver | reflexivity].
  - apply H2. right. reflexivity.
Defined.

(** ** Priorities of the scoring loop *)

Section PriorityFacts.
Variable interpreter : option PythonInterpreter.t.
Variable notebookMetadata : option INotebookMetadataLive.t.

Abbreviation score := (scoreSpec interpreter notebookMetadata).

Lemma score_display_ge sp :
  displayNameMatches notebookMetadata sp = true -> (16 <= score (Some sp))%Z.
Proof.
  intros H. rewrite scoreSpec_additive, H.
  destruct (pathMatches interpreter sp), (versionMatches interpreter sp); lia.
Qed.

Lemma score_no_display_le sp :
  displayNameMatches notebookMetadata sp = false -> (score (Some sp) <= 12)%Z.
Proof.
  intros H. rewrite scoreSpec_additive, H.
  destruct (pathMatches interpreter sp), (versionMatches interpreter sp); lia.
Qed.

Lemma score_path_ge sp :
  pathMatches interpreter sp = true -> (8 <= score (Some sp))%Z.
Proof.
  intros H. rewrite scoreSpec_additive, H.
  destruct (versionMatches interpreter sp),
    (displayNameMatches notebookMetadata sp); lia.
Qed.

Lemma score_no_path_no_display_le sp :
  pathMatches interpreter sp = false ->
  displayNameMatches notebookMetadata sp = false -> (score (Some sp) <= 4)%Z.
Proof.
  intros H1 H2. rewrite scoreSpec_additive, H1, H2.
  destruct (versionMatches interpreter sp); lia.
Qed.

(** The outcome of the loop scores at least as much as every entry. *)
Lemma scoreLoop_dominates l x :
  x ∈ l ->
  exists b, b ∈ l /\
    scoreLoop interpreter notebookMetadata (Some l) = (b, score b) /\
    (score x <= score b)%Z.
Proof.
  intros Hx. destruct l as [|s l]; [inversion Hx|].
  destruct (scoreLoop_first_best interpreter notebookMetadata s l)
    as (i & b & (Hi & Hmax & _) & Heq).
  exists b. split; [eapply list_elem_of_lookup_2; exact Hi|].
  split; [exact Heq|].
  apply list_elem_of_lookup in Hx as [j Hj]. eauto.
Qed.
End PriorityFacts.

(** X4: when some candidate has the declared display name, the candidate
    returned by the loop has it too, whatever paths and version digits the
    other candidates match. *)
Theorem display_name_match_wins :
  forall interpreter notebookMetadata
         (l : list (option IJupyterKernelSpec.t)) sp,
    Some sp ∈ l ->
    displayNameMatches notebookMetadata sp = true ->
    exists b,
      Some b ∈ l /\
      fst (scoreLoop interpreter notebookMetadata (Some l)) = Some b /\
      displayNameMatches notebookMetadata b = true.
Proof.
  intros interpreter md l sp Hin Hd.
  destruct (scoreLoop_dominates interpreter md l (Some sp) Hin)
    as (b & Hb & Heq & Hle).
  pose proof (score_display_ge interpreter md sp Hd) as Hge.
  destruct b as [b|];
    [|change (scoreSpec interpreter md None) with 0%Z in Hle; lia].
  exists b. rewrite Heq. repeat split; auto.
  destruct (displayNameMatches md b) eqn:Hdb; [reflexivity|].
  pose proof (score_no_display_le interpreter md b Hdb). lia.
Qed.

Lemma display_name_match_wins_witness :
  exists b,
    Some b ∈ [Some specA; Some specB] /\
    fst (scoreLoop (Some interpreter39) (Some metadata_Py3)
           (Some [Some specA; Some specB])) = Some b /\
    displayNameMatches (Some metadata_Py3) b = true.
Proof.
  apply (display_name_match_wins (Some interpreter39) (Some metadata_Py3)
           [Some specA; Some specB] specB).
  - apply list_elem_of_further, list_elem_of_here.
  - reflexivity.
Defined.

(** X5: when no candidate has the declared display name and some
    candidate has the interpreter's path, the candidate returned by the
    loop has the interpreter's path. *)
Theorem path_match_wins_without_display_name :
  forall interpreter notebookMetadata
         (l : list (option IJupyterKernelSpec.t)) sp,
    Forall (fun x => forall s, x = Some s ->
                     displayNameMatches notebookMetadata s = false) l ->
    Some sp ∈ l ->
    pathMatches interpreter sp = true ->
    exists b,
      Some b ∈ l /\
      fst (scoreLoop interpreter notebookMetadata (Some l)) = Some b /\
      pathMatches interpreter b = true.
Proof.
  intros interpreter md l sp Hnone Hin Hp.
  destruct (scoreLoop_dominates interpreter md l (Some sp) Hin)
    as (b & Hb & Heq & Hle).
  pose proof (score_path_ge interpreter md sp Hp) as Hge.
  destruct b as [b|];
    [|change (scoreSpec interpreter md None) with 0%Z in Hle; lia].
  exists b. rewrite Heq. repeat split; auto.
  rewrite Forall_forall in Hnone. specialize (Hnone _ Hb b eq_refl).
  destruct (pathMatches interpreter b) eqn:Hpb; [reflexivity|].
  pose proof (score_no_path_no_display_le interpreter md b Hpb Hnone). lia.
Qed.

Lemma path_match_wins_without_display_name_witness :
  exists b,
    Some b ∈ [Some specR; Some specA] /\
    fst (scoreLoop (Some interpreter39) None (Some [Some specR; Some specA]))
    = Some b /\
    pathMatches (Some interpreter39) b = true.
Proof.
  apply (path_match_wins_without_display_name (Some interpreter39) None
           [Some specR; Some specA] specA).
  - constructor; [intros s [= <-]; reflexivity|].
    constructor; [intros s [= <-]; reflexivity | constructor].
  - apply list_elem_of_further, list_elem_of_here.
  - reflexivity.
Defined.

(** X6: the version contribution is only ever earned against an
    interpreter whose major version is between 1 and 9. *)
Theorem version_contribution_needs_one_digit_major :
  forall interpreter sp,
    versionMatches interpreter sp = true ->
    exists i v,
      interpreter = Some i /\ PythonInterpreter.version i = Some v /\
      (1 <= SemVer.major v <= 9)%Z.
Proof.
  intros interpreter sp H. unfold versionMatches in H.
  destruct interpreter as [i|]; [|discriminate].
  destruct (PythonInterpreter.version i) as [v|] eqn:Hv; [|discriminate].
  exists i, v. repeat split; auto;
    apply andb_true_iff in H as [_ H];
    destruct (regex_exec (IJupyterKernelSpec.name sp)) as [g|] eqn:Hg;
    try discriminate;
    destruct (regex_exec_starts _ _ Hg) as (c & r & -> & Hc);
    destruct (is_digit_value _ Hc) as [d Hd];
    rewrite (nameVersion_first_digit _ _ _ Hd) in H;
    apply nameVersionMatches_spec in H as [Hnz <-];
    pose proof (digit_value_bounds _ _ Hd); lia.
Qed.

Lemma version_contribution_needs_one_digit_major_witness :
  exists i v,
    Some (interpreter_with_major 3) = Some i /\
    PythonInterpreter.version i = Some v /\ (1 <= SemVer.major v <= 9)%Z.
Proof.
  exact (version_contribution_needs_one_digit_major
           (Some (interpreter_with_major 3)) (spec_named "python38") eq_refl).
Defined.

(** ** The two branches of [getKernelForRemoteConnection] *)

Lemma find_none_Forall {A} (f : A -> bool) (l : list A) :
  Forall (fun x => f x = false) l -> List.find f l = None.
Proof.
  induction 1 as [|x l Hx _ IH]; simpl; [reflexivity|]. now rewrite Hx.
Qed.

Lemma liveSessionFor_Some sessions md session :
  liveSessionFor sessions md = Some session ->
  exists l id,
    sessions = Some l /\ session ∈ l /\
    md ≫= INotebookMetadataLive.id = Some id /\ id <> EmptyString /\
    KernelModel.id (Session.kernel session) = id.
Proof.
  unfold liveSessionFor, findSession.
  destruct md as [m|]; [|discriminate]. simpl.
  destruct (INotebookMetadataLive.id m) as [id|]; [|discriminate].
  destruct (string_truthy id) eqn:Hid; [|discriminate].
  destruct sessions as [l|]; [|discriminate].
  intros Hfind. apply List.find_some in Hfind as [Hin Heq].
  exists l, id. repeat split; auto.
  - now apply list_elem_of_In.
  - now apply string_truthy_ne.
  - now apply bool_decide_eq_true in Heq.
Qed.

(** X7: when the metadata has no non-empty live kernel id, or there is
    no list of running sessions, or no running session has a kernel with
    that id, the result is the outcome of the scoring loop with the active
    interpreter and no live kernel model. *)
Theorem remote_without_live_session_scores :
  forall Date_parse toString_unsafe now interpreter specs sessions md,
    (forall id l,
        md ≫= INotebookMetadataLive.id = Some id -> id <> EmptyString ->
        sessions = Some l ->
        Forall (fun s => KernelModel.id (Session.kernel s) <> id) l) ->
    getKernelForRemoteConnection Date_parse toString_unsafe now interpreter specs sessions md
    = KernelSpecInterpreter.mk (fst (scoreLoop interpreter md specs))
        interpreter None.
Proof.
  intros Date_parse toString_unsafe now interpreter specs sessions md Hno.
  apply getKernelForRemoteConnection_scoring.
  destruct (liveSessionFor sessions md) as [session|] eqn:Hlive; [|reflexivity].
  apply liveSessionFor_Some in Hlive as (l & id & -> & Hin & Hid & Hne & Hk).
  specialize (Hno id l Hid Hne eq_refl). rewrite Forall_forall in Hno.
  now destruct (Hno session Hin).
Qed.

Lemma remote_without_live_session_scores_witness :
  getKernelForRemoteConnection sample_Date_parse sample_toString sample_now (Some interpreter39)
    (Some [Some specA; Some specB]) (Some [session2]) (Some (metadata_live "k-1"))
  = KernelSpecInterpreter.mk
      (fst (scoreLoop (Some interpreter39) (Some (metadata_live "k-1"))
              (Some [Some specA; Some specB])))
      (Some interpreter39) None.
Proof.
  apply (remote_without_live_session_scores sample_Date_parse sample_toString sample_now
           (Some interpreter39) (Some [Some specA; Some specB])
           (Some [session2]) (Some (metadata_live "k-1"))).
  intros id l [= <-] _ [= <-]. constructor; [discriminate | constructor].
Defined.

(** X8: the result of [getKernelForRemoteConnection] always carries the
    active interpreter, never both a kernel spec and a live kernel model,
    and a live kernel model in it is that of one of the running sessions,
    with the non-empty kernel id the metadata asks for. *)
Theorem remote_result_invariants :
  forall Date_parse toString_unsafe now interpreter specs sessions md,
    let r := getKernelForRemoteConnection Date_parse toString_unsafe now interpreter specs
               sessions md in
    KernelSpecInterpreter.interpreter r = interpreter /\
    (KernelSpecInterpreter.kernelSpec r = None \/
     KernelSpecInterpreter.kernelModel r = None) /\
    (forall km,
        KernelSpecInterpreter.kernelModel r = Some km ->
        exists l session id,
          sessions = Some l /\ session ∈ l /\
          km = liveKernelModel_of Date_parse toString_unsafe now session /\
          md ≫= INotebookMetadataLive.id = Some id /\ id <> EmptyString /\
          LiveKernelModel.id km = Some id).
Proof.
  intros Date_parse toString_unsafe now interpreter specs sessions md r. subst r.
  unfold getKernelForRemoteConnection.
  destruct (liveSessionFor sessions md) as [session|] eqn:Hlive.
  - simpl. split; [reflexivity|]. split; [now left|].
    intros km [= <-].
    apply liveSessionFor_Some in Hlive as (l & id & -> & Hin & Hid & Hne & Hk).
    exists l, session, id. repeat split; auto. simpl. now rewrite Hk.
  - destruct (scoreLoop interpreter md specs) as [bestMatch bestScore]. simpl.
    split; [reflexivity|]. split; [now right | discriminate].
Qed.

Lemma remote_result_invariants_witness :
  exists l session id,
    Some [session2; session1] = Some l /\ session ∈ l /\
    liveKernelModel_of sample_Date_parse sample_toString sample_now session1
    = liveKernelModel_of sample_Date_parse sample_toString sample_now session /\
    Some (metadata_live "k-1") ≫= INotebookMetadataLive.id = Some id /\
    id <> EmptyString /\
    LiveKernelModel.id (liveKernelModel_of sample_Date_parse sample_toString sample_now session1)
    = Some id.
Proof.
  exact (proj2 (proj2 (remote_result_invariants sample_Date_parse sample_toString sample_now
           (Some interpreter39) (Some [Some specA]) (Some [session2; session1])
           (Some (metadata_live "k-1"))))
         (liveKernelModel_of sample_Date_parse sample_toString sample_now session1) eq_refl).
Defined.

(** ** What the pattern captures *)

(** X9: in a name made of digits, then at least one non-digit, then at
    least one digit, then nothing or something that starts with a
    non-digit, the pattern captures that first run of digits, whatever
    follows it; a name of digits only or of non-digits only does not
    match. *)
Theorem pattern_captures_first_digit_run :
  forall pre nd ds rest,
    string_forall is_digit pre = true ->
    nd <> EmptyString -> string_forall is_nondigit nd = true ->
    ds <> EmptyString -> string_forall is_digit ds = true ->
    no_leading_digit rest = true ->
    regex_exec (pre ++ nd ++ ds ++ rest) = Some ds /\
    regex_exec pre = None /\
    regex_exec nd = None.
Proof.
  intros pre nd ds rest Hpre Hnd Hnd' Hds Hds' Hrest.
  rewrite !regex_exec_scan. unfold first_digit_group. split; [|split].
  - rewrite (skip_digits_app _ _ Hpre).
    destruct nd as [|c nd]; [congruence|].
    simpl in Hnd'. apply andb_true_iff in Hnd' as [Hc Hnd'].
    simpl. unfold is_nondigit in Hc. apply negb_true_iff in Hc. rewrite Hc.
    rewrite (skip_nondigits_app _ _ Hnd').
    destruct ds as [|d ds]; [congruence|].
    pose proof Hds' as Hds''. simpl in Hds''.
    apply andb_true_iff in Hds'' as [Hd _].
    assert (Hskip : skip_nondigits (String d ds ++ rest)%string
                    = (String d ds ++ rest)%string) by (simpl; now rewrite Hd).
    rewrite Hskip. unfold digits1. rewrite (digit_run_app _ _ Hds' Hrest).
    reflexivity.
  - now rewrite (skip_digits_all _ Hpre).
  - destruct nd as [|c nd]; [congruence|].
    simpl in Hnd'. apply andb_true_iff in Hnd' as [Hc Hnd'].
    simpl. unfold is_nondigit in Hc. apply negb_true_iff in Hc. rewrite Hc.
    now rewrite (skip_nondigits_all _ Hnd').
Qed.

Lemma pattern_captures_first_digit_run_witness :
  regex_exec ("3" ++ "py" ++ "2" ++ "to3") = Some "2"%string /\
  regex_exec "3" = None /\ regex_exec "py" = None.
Proof.
  apply (pattern_captures_first_digit_run "3" "py" "2" "to3");
    solve [reflexivity | discriminate].
Defined.

(** ** The selector only appends to the trace *)

Section AppendFacts.
Variable Error : Type.

Lemma appends_ret {A} (a : A) : appends (@ret Error A a).
Proof. intros tr. unfold ret. simpl. now rewrite app_nil_r. Qed.

Lemma appends_throw {A} (e : Error) : appends (@throw Error A e).
Proof. intros tr. unfold throw. simpl. now rewrite app_nil_r. Qed.

Lemma appends_emit (e : Event) : appends (emit Error e).
Proof. intros tr. reflexivity. Qed.

Lemma appends_call {A} (e : Event) (r : Error + A) : appends (call Error e r).
Proof. intros tr. reflexivity. Qed.

Lemma appends_bind {A B} (m : M Error A) (k : A -> M Error B) :
  appends m -> (forall a, appends (k a)) -> appends (bind Error m k).
Proof.
  intros Hm Hk tr. unfold bind. rewrite (Hm tr).
  destruct (m []) as [[e|a] evs] eqn:Hnil; simpl.
  - reflexivity.
  - rewrite (Hk a (tr ++ evs)), (Hk a evs). simpl. now rewrite app_assoc.
Qed.

Lemma appends_mbind {A B} (m : M Error A) (k : A -> M Error B) :
  appends m -> (forall a, appends (k a)) ->
  appends (@mbind (M Error) (M_bind Error) A B k m).
Proof. apply appends_bind. Qed.

Lemma appends_tryCatch {A} (m : M Error A) (h : Error -> M Error A) :
  appends m -> (forall e, appends (h e)) -> appends (tryCatch Error m h).
Proof.
  intros Hm Hh tr. unfold tryCatch. rewrite (Hm tr).
  destruct (m []) as [[e|a] evs] eqn:Hnil; simpl.
  - rewrite (Hh e (tr ++ evs)), (Hh e evs). simpl. now rewrite app_assoc.
  - reflexivity.
Qed.

Lemma appends_when (c : bool) (m : M Error unit) :
  appends m -> appends (when Error c m).
Proof. intros Hm. destruct c; [exact Hm | apply appends_ret]. Qed.
End AppendFacts.

(** Decomposition of a computation of the selector into these steps. *)
Ltac appends_steps :=
  repeat first
    [ apply appends_mbind; [|intros ?]
    | apply appends_bind; [|intros ?]
    | apply appends_tryCatch; [|intros ?]
    | apply appends_when
    | apply appends_ret
    | apply appends_throw
    | apply appends_emit
    | apply appends_call
    | match goal with
      | |- appends (match ?x with _ => _ end) => destruct x
      end ].

Section SelectorAppends.
Variable Error : Type.
Variable C : Collaborators Error.

Lemma appends_useInterpreterAsKernel interpreter type notFound disableUI :
  appends (useInterpreterAsKernel C interpreter type notFound disableUI).
Proof.
  unfold useInterpreterAsKernel, sendTelemetryEvent. cbv zeta. appends_steps.
Qed.

Lemma appends_selectKernel type telemetryEvent suggestions current :
  appends (selectKernel C type telemetryEvent suggestions current).
Proof.
  unfold selectKernel, sendTelemetryEvent, useInterpreterAndDefaultKernel.
  cbv zeta. appends_steps; apply appends_useInterpreterAsKernel.
Qed.

Lemma appends_selectLocalKernel hide type current :
  appends (selectLocalKernel C hide type current).
Proof.
  unfold selectLocalKernel.
  apply appends_mbind; [apply appends_call | intros ?; apply appends_selectKernel].
Qed.

Lemma appends_selectRemoteKernel hide current :
  appends (selectRemoteKernel C hide current).
Proof.
  unfold selectRemoteKernel.
  apply appends_mbind; [apply appends_call | intros ?; apply appends_selectKernel].
Qed.
End SelectorAppends.

(** ** What [useInterpreterAsKernel] does to the outside *)

Section InterpreterAsKernelFacts.
Variable Error : Type.
Variable C : Collaborators Error.

(** The complete run of [useInterpreterAsKernel] from the empty trace. *)
Lemma useInterpreterAsKernel_run i type notFound disableUI :
  useInterpreterAsKernel C i type notFound disableUI [] =
  let notify := shouldNotify notFound disableUI in
  let registration (searched : list Event) :=
    let pre :=
      EvAreDependenciesInstalled i :: searched ++ [EvRegisterKernel i disableUI] in
    match registerKernel C i disableUI with
    | inr ks =>
        (inr (KernelSpecInterpreter.mk ks (Some i) None),
         pre ++
         (if notify
          then [EvShowInformationMessage
                  (fallBackToRegisterAndUseActiveInterpeterAsKernel
                     (or_empty notFound))]
          else []) ++
         [EvGetKernelSelectionsForLocalSession type])
    | inl e => (inl e, pre ++ [EvTelemetry KernelRegisterFailed])
    end in
  if areDependenciesInstalled C i then
    match findMatchingKernelSpec C i with
    | Some ks =>
        (inr (KernelSpecInterpreter.mk (Some ks) (Some i) None),
         [EvAreDependenciesInstalled i; EvFindMatchingKernelSpec i;
          EvUpdateKernelEnvironment (Some i) ks] ++
         (if notify
          then [EvShowInformationMessage
                  (fallbackToUseActiveInterpeterAsKernel (or_empty notFound))]
          else []) ++
         [EvTelemetry UseInterpreterAsKernel])
    | None => registration [EvFindMatchingKernelSpec i]
    end
  else registration [].
Proof.
  unfold useInterpreterAsKernel. run_M.
  destruct (areDependenciesInstalled C i);
    [destruct (findMatchingKernelSpec C i)|];
    destruct (registerKernel C i disableUI);
    destruct (shouldNotify notFound disableUI); reflexivity.
Qed.

Lemma useInterpreterAsKernel_frame i type notFound disableUI tr :
  useInterpreterAsKernel C i type notFound disableUI tr =
  (fst (useInterpreterAsKernel C i type notFound disableUI []),
   tr ++ snd (useInterpreterAsKernel C i type notFound disableUI [])).
Proof. apply appends_useInterpreterAsKernel. Qed.
End InterpreterAsKernelFacts.

(** Case analysis on a run of [useInterpreterAsKernel]. *)
Ltac run_cases C i disableUI notFound :=
  cbv zeta;
  destruct (areDependenciesInstalled C i);
  [destruct (findMatchingKernelSpec C i)|];
  destruct (registerKernel C i disableUI);
  destruct (shouldNotify notFound disableUI) eqn:?Hnotify; simpl.

(** X10: [useInterpreterAsKernel] shows at most one notification: exactly
    one when it returns, a non-empty display name of the missing kernel is
    given and [disableUI] is not true, and none when it throws, when
    [disableUI] is true or when no name or an empty one is given; the
    message carries that name and is the fall-back one when no
    registration was made and the registered one after a registration. *)
Theorem useInterpreterAsKernel_notifies_once :
  forall Error (C : Collaborators Error) i type notFound disableUI tr,
  exists res evs,
    useInterpreterAsKernel C i type notFound disableUI tr = (res, tr ++ evs) /\
    count_events is_informationMessage evs
    = match res with
      | inr _ => if shouldNotify notFound disableUI then 1%nat else 0%nat
      | inl _ => 0%nat
      end /\
    (disableUI = Some true -> count_events is_informationMessage evs = 0%nat) /\
    (opt_string_truthy notFound = false ->
     count_events is_informationMessage evs = 0%nat) /\
    (notFound = None \/ notFound = Some EmptyString ->
     count_events is_informationMessage evs = 0%nat) /\
    (forall e, res = inl e -> count_events is_informationMessage evs = 0%nat) /\
    (forall name sel,
        notFound = Some name -> name <> EmptyString ->
        disableUI = None \/ disableUI = Some false ->
        res = inr sel ->
        count_events is_informationMessage evs = 1%nat /\
        ((In (EvShowInformationMessage
                (fallbackToUseActiveInterpeterAsKernel name)) evs /\
          registerKernel_calls evs = 0%nat) \/
         (In (EvShowInformationMessage
                (fallBackToRegisterAndUseActiveInterpeterAsKernel name)) evs /\
          registerKernel_calls evs = 1%nat))) /\
    (forall m, In (EvShowInformationMessage m) evs ->
       (m = fallbackToUseActiveInterpeterAsKernel (or_empty notFound) /\
        registerKernel_calls evs = 0%nat) \/
       (m = fallBackToRegisterAndUseActiveInterpeterAsKernel (or_empty notFound) /\
        registerKernel_calls evs = 1%nat)).
Proof.
  intros Error C i type notFound disableUI tr.
  rewrite useInterpreterAsKernel_frame, useInterpreterAsKernel_run.
  assert (Hui : disableUI = Some true -> shouldNotify notFound disableUI = false).
  { intros ->. unfold shouldNotify. apply andb_false_r. }
  assert (Hname : opt_string_truthy notFound = false ->
                  shouldNotify notFound disableUI = false).
  { intros H. unfold shouldNotify. now rewrite H. }
  assert (Hname' : notFound = None \/ notFound = Some EmptyString ->
                   shouldNotify notFound disableUI = false).
  { intros [-> | ->]; reflexivity. }
  assert (Hyes : forall name,
             notFound = Some name -> name <> EmptyString ->
             disableUI = None \/ disableUI = Some false ->
             shouldNotify notFound disableUI = true /\ or_empty notFound = name).
  { intros name -> Hne Hd. apply string_truthy_ne in Hne.
    unfold shouldNotify. simpl. rewrite Hne.
    destruct Hd as [-> | ->]; split; reflexivity. }
  run_cases C i disableUI notFound; eexists; eexists;
    (split; [reflexivity|]); (split; [reflexivity|]);
    (split; [intros H; apply Hui in H; try discriminate; reflexivity|]);
    (split; [intros H; apply Hname in H; try discriminate; reflexivity|]);
    (split; [intros H; apply Hname' in H; try discriminate; reflexivity|]);
    (split; [intros e' He'; try discriminate He'; reflexivity|]);
    (split;
     [ intros name sel Hn Hne Hd Hres;
       destruct (Hyes name Hn Hne Hd) as [Hy Hor];
       first
         [ discriminate Hy
         | discriminate Hres
         | rewrite Hor; split; [reflexivity|];
           first [ left; split; [simpl; auto 10 | reflexivity]
                 | right; split; [simpl; auto 10 | reflexivity] ] ]
     | intros m Hin; simpl in Hin;
       repeat (destruct Hin as [Hin|Hin]; try discriminate);
       try contradiction;
       injection Hin as <-;
       first [ left; split; reflexivity | right; split; reflexivity ] ]).
Qed.

Lemma useInterpreterAsKernel_notifies_once_witness :
  count_events is_informationMessage
    (snd (useInterpreterAsKernel
            (sample_collaborators true (Some specA) (inl "failed"%string) None)
            interpreter39 jupyter (Some "Py3"%string) None [])) = 1%nat /\
  count_events is_informationMessage
    (snd (useInterpreterAsKernel
            (sample_collaborators true (Some specA) (inl "failed"%string) None)
            interpreter39 jupyter (Some "Py3"%string) (Some true) [])) = 0%nat.
Proof.
  destruct (useInterpreterAsKernel_notifies_once string
              (sample_collaborators true (Some specA) (inl "failed"%string) None)
              interpreter39 jupyter (Some "Py3"%string) None [])
    as (res & evs & Hrun & _ & _ & _ & _ & _ & Hone & _).
  destruct (useInterpreterAsKernel_notifies_once string
              (sample_collaborators true (Some specA) (inl "failed"%string) None)
              interpreter39 jupyter (Some "Py3"%string) (Some true) [])
    as (res' & evs' & Hrun' & _ & Hnone & _).
  rewrite Hrun, Hrun'. simpl. split.
  - vm_compute in Hrun. injection Hrun as Hres _.
    exact (proj1 (Hone "Py3"%string _ eq_refl ltac:(discriminate)
                    (or_introl eq_refl) (eq_sym Hres))).
  - exact (Hnone eq_refl).
Defined.

(** X11: [useInterpreterAsKernel] either updates the environment of an
    existing kernel spec or calls [registerKernel], never both and always
    one of the two; the list of local kernels is fetched again exactly
    when a registration succeeded. *)
Theorem useInterpreterAsKernel_updates_or_registers :
  forall Error (C : Collaborators Error) i type notFound disableUI tr,
  exists res evs,
    useInterpreterAsKernel C i type notFound disableUI tr = (res, tr ++ evs) /\
    (count_events is_updateKernelEnvironment evs + registerKernel_calls evs
     = 1)%nat /\
    count_events is_prewarm evs
    = match res with
      | inr _ => registerKernel_calls evs
      | inl _ => 0%nat
      end /\
    (registerKernel_calls evs = 0%nat <->
     areDependenciesInstalled C i = true /\
     findMatchingKernelSpec C i <> None).
Proof.
  intros Error C i type notFound disableUI tr.
  rewrite useInterpreterAsKernel_frame, useInterpreterAsKernel_run.
  cbv zeta.
  destruct (areDependenciesInstalled C i);
    [destruct (findMatchingKernelSpec C i)|];
    destruct (registerKernel C i disableUI);
    destruct (shouldNotify notFound disableUI); simpl;
    eexists; eexists; (split; [reflexivity|]);
    (split; [reflexivity|]); (split; [reflexivity|]);
    unfold registerKernel_calls; simpl;
    (split;
     [ intros Hc; first [discriminate Hc | split; [reflexivity | discriminate]]
     | intros [H1 H2]; first [reflexivity | discriminate H1 | congruence] ]).
Qed.

(** ** The branches of [selectKernel] *)

Section SelectKernelFacts.
Variable Error : Type.
Variable C : Collaborators Error.

Lemma selectKernel_frame type telemetryEvent suggestions current tr :
  selectKernel C type telemetryEvent suggestions current tr =
  (fst (selectKernel C type telemetryEvent suggestions current []),
   tr ++ snd (selectKernel C type telemetryEvent suggestions current [])).
Proof. apply appends_selectKernel. Qed.

(** The events every run of [selectKernel] starts with. *)
Lemma selectKernel_picked type telemetryEvent suggestions current item tr :
  showQuickPick C suggestions (placeHolderFor C current) = Some item ->
  selectKernel C type telemetryEvent suggestions current tr =
  let sel := IKernelSpecQuickPickItem.selection item in
  let tr' := tr ++ [EvTelemetry telemetryEvent;
                    EvShowQuickPick suggestions (placeHolderFor C current)] in
  let existing :=
    match Selection.kernelModel sel with
    | Some km =>
        (inr (KernelSpecInterpreter.mk (Selection.kernelSpec sel)
                (findMatchingInterpreter C (inr km)) (Some km)),
         tr' ++ [EvTelemetry (SwitchToExistingKernel
                                (computeLanguage C (LiveKernelModel.language km)));
                 EvFindMatchingInterpreter (inr km)])
    | None =>
        match Selection.kernelSpec sel with
        | Some ks =>
            (inr (KernelSpecInterpreter.mk (Some ks)
                    (findMatchingInterpreter C (inl ks)) None),
             tr' ++ [EvTelemetry (SwitchToExistingKernel
                                    (computeLanguage C (IJupyterKernelSpec.language ks)));
                     EvFindMatchingInterpreter (inl ks);
                     EvUpdateKernelEnvironment (findMatchingInterpreter C (inl ks)) ks])
        | None => (inr KernelSpecInterpreter.empty, tr')
        end
    end in
  match Selection.interpreter sel, type with
  | Some i, jupyter =>
      useInterpreterAsKernel C i jupyter None (Some false)
        (tr' ++ [EvTelemetry SwitchToInterpreterAsKernel])
  | Some i, raw =>
      (inr (KernelSpecInterpreter.mk
              (Some (createDefaultKernelSpec C (PythonInterpreter.displayName i)))
              (Some i) None), tr')
  | _, _ => existing
  end.
Proof.
  intros Hpick. unfold selectKernel, useInterpreterAndDefaultKernel. run_M.
  rewrite Hpick.
  destruct (Selection.interpreter (IKernelSpecQuickPickItem.selection item)) as [i|];
    [destruct type|];
    try destruct (Selection.kernelModel (IKernelSpecQuickPickItem.selection item));
    try destruct (Selection.kernelSpec (IKernelSpecQuickPickItem.selection item));
    rewrite <- ?app_assoc; reflexivity.
Qed.
End SelectKernelFacts.

(** X12: picking an interpreter for a raw connection gives the default
    kernel spec of its display name with the interpreter, without a
    dependency check, a search or a registration: the telemetry event and
    the picker are the only events. *)
Theorem selectKernel_raw_interpreter_default_spec :
  forall Error (C : Collaborators Error) telemetryEvent suggestions current tr item i,
    showQuickPick C suggestions (placeHolderFor C current) = Some item ->
    Selection.interpreter (IKernelSpecQuickPickItem.selection item) = Some i ->
    selectKernel C raw telemetryEvent suggestions current tr
    = (inr (KernelSpecInterpreter.mk
              (Some (createDefaultKernelSpec C (PythonInterpreter.displayName i)))
              (Some i) None),
       tr ++ [EvTelemetry telemetryEvent;
              EvShowQuickPick suggestions (placeHolderFor C current)]).
Proof.
  intros Error C telemetryEvent suggestions current tr item i Hpick Hi.
  rewrite (selectKernel_picked Error C _ _ _ _ _ _ Hpick). cbv zeta.
  now rewrite Hi.
Qed.

Lemma selectKernel_raw_interpreter_default_spec_witness :
  fst (selectKernel
         (sample_collaborators false None (inl "failed"%string) (Some item_interpreter))
         raw SelectLocalJupyterKernel [item_interpreter] None [])
  = inr (KernelSpecInterpreter.mk (Some (spec_named "python3"))
           (Some interpreter39) None).
Proof.
  rewrite (selectKernel_raw_interpreter_default_spec string
             (sample_collaborators false None (inl "failed"%string)
                (Some item_interpreter))
             SelectLocalJupyterKernel [item_interpreter] None [] item_interpreter
             interpreter39 eq_refl eq_refl).
  reflexivity.
Defined.

(** X13: picking an interpreter for a jupyter connection continues as
    [useInterpreterAsKernel] with no missing kernel name and the UI
    enabled, after the telemetry event, the picker and the switch event;
    no notification is shown, and the call throws only what
    [registerKernel] throws. *)
Theorem selectKernel_jupyter_interpreter_uses_it :
  forall Error (C : Collaborators Error) telemetryEvent suggestions current tr item i,
    showQuickPick C suggestions (placeHolderFor C current) = Some item ->
    Selection.interpreter (IKernelSpecQuickPickItem.selection item) = Some i ->
    exists res evs,
      useInterpreterAsKernel C i jupyter None (Some false) [] = (res, evs) /\
      selectKernel C jupyter telemetryEvent suggestions current tr
      = (res,
         tr ++ [EvTelemetry telemetryEvent;
                EvShowQuickPick suggestions (placeHolderFor C current);
                EvTelemetry SwitchToInterpreterAsKernel] ++ evs) /\
      count_events is_informationMessage evs = 0%nat /\
      (forall e, res = inl e -> registerKernel C i (Some false) = inl e).
Proof.
  intros Error C telemetryEvent suggestions current tr item i Hpick Hi.
  rewrite (selectKernel_picked Error C _ _ _ _ _ _ Hpick). cbv zeta.
  rewrite Hi.
  rewrite (useInterpreterAsKernel_frame Error C i jupyter None (Some false)
             (_ ++ _)).
  destruct (useInterpreterAsKernel C i jupyter None (Some false) [])
    as [res evs] eqn:Hrun.
  exists res, evs. split; [reflexivity|].
  split; [rewrite <- !app_assoc; reflexivity|].
  rewrite useInterpreterAsKernel_run in Hrun. cbv zeta in Hrun.
  destruct (areDependenciesInstalled C i);
    [destruct (findMatchingKernelSpec C i)|];
    destruct (registerKernel C i (Some false)); simpl in Hrun;
    injection Hrun as <- <-; (split; [reflexivity|]);
    intros e' He'; congruence.
Qed.

Lemma selectKernel_jupyter_interpreter_uses_it_witness :
  exists res evs,
    useInterpreterAsKernel
      (sample_collaborators false None (inl "failed"%string) (Some item_interpreter))
      interpreter39 jupyter None (Some false) [] = (res, evs) /\
    selectKernel
      (sample_collaborators false None (inl "failed"%string) (Some item_interpreter))
      jupyter SelectLocalJupyterKernel [item_interpreter] None []
    = (res,
       [] ++ [EvTelemetry SelectLocalJupyterKernel;
              EvShowQuickPick [item_interpreter]
                (placeHolderFor
                   (sample_collaborators false None (inl "failed"%string)
                      (Some item_interpreter)) None);
              EvTelemetry SwitchToInterpreterAsKernel] ++ evs) /\
    count_events is_informationMessage evs = 0%nat /\
    (forall e, res = inl e ->
       registerKernel
         (sample_collaborators false None (inl "failed"%string) (Some item_interpreter))
         interpreter39 (Some false) = inl e).
Proof.
  exact (selectKernel_jupyter_interpreter_uses_it string
           (sample_collaborators false None (inl "failed"%string)
              (Some item_interpreter))
           SelectLocalJupyterKernel [item_interpreter] None [] item_interpreter
           interpreter39 eq_refl eq_refl).
Defined.

(** X14: when the picked entry has no interpreter, or the connection type
    is neither jupyter nor raw, a live kernel model in the entry is
    returned with the entry's kernel spec and the interpreter matched to
    the model, and the kernel environment is not updated; with a kernel
    spec only, the spec is returned with its matched interpreter and the
    environment is updated once for that interpreter and spec. In both
    cases nothing is registered. *)
Theorem selectKernel_existing_kernel :
  forall Error (C : Collaborators Error) type telemetryEvent suggestions current
         tr item,
    showQuickPick C suggestions (placeHolderFor C current) = Some item ->
    Selection.interpreter (IKernelSpecQuickPickItem.selection item) = None \/
    type = noConnection ->
    let sel := IKernelSpecQuickPickItem.selection item in
    exists evs,
      snd (selectKernel C type telemetryEvent suggestions current tr) = tr ++ evs /\
      registerKernel_calls evs = 0%nat /\
      (forall km, Selection.kernelModel sel = Some km ->
         fst (selectKernel C type telemetryEvent suggestions current tr)
         = inr (KernelSpecInterpreter.mk (Selection.kernelSpec sel)
                  (findMatchingInterpreter C (inr km)) (Some km)) /\
         count_events is_updateKernelEnvironment evs = 0%nat) /\
      (forall ks, Selection.kernelModel sel = None ->
         Selection.kernelSpec sel = Some ks ->
         fst (selectKernel C type telemetryEvent suggestions current tr)
         = inr (KernelSpecInterpreter.mk (Some ks)
                  (findMatchingInterpreter C (inl ks)) None) /\
         count_events is_updateKernelEnvironment evs = 1%nat /\
         In (EvUpdateKernelEnvironment (findMatchingInterpreter C (inl ks)) ks) evs) /\
      (Selection.kernelModel sel = None -> Selection.kernelSpec sel = None ->
       fst (selectKernel C type telemetryEvent suggestions current tr)
       = inr KernelSpecInterpreter.empty).
Proof.
  intros Error C type telemetryEvent suggestions current tr item Hpick Hno sel.
  rewrite (selectKernel_picked Error C _ _ _ _ _ _ Hpick). cbv zeta. fold sel.
  assert (Hbranch :
    forall (X : Type) (a : PythonInterpreter.t -> X) (b : PythonInterpreter.t -> X)
           (c : X),
      match Selection.interpreter sel, type with
      | Some i, jupyter => a i
      | Some i, raw => b i
      | _, _ => c
      end = c).
  { intros X a b c. destruct Hno as [Hnone | ->].
    - fold sel in Hnone. now rewrite Hnone.
    - now destruct (Selection.interpreter sel). }
  rewrite Hbranch.
  destruct (Selection.kernelModel sel) as [km|];
    [|destruct (Selection.kernelSpec sel) as [ks|]]; simpl;
    rewrite <- ?app_assoc; eexists; (split; [reflexivity|]);
    (split; [reflexivity|]).
  - split; [|split; [|discriminate]].
    + intros km' [= <-]. split; reflexivity.
    + intros ks Hnone. discriminate Hnone.
  - split; [discriminate|]. split; [|discriminate].
    intros ks' _ [= <-]. split; [reflexivity|]. split; [reflexivity|].
    simpl. tauto.
  - split; [discriminate|]. split; [discriminate|]. reflexivity.
Qed.

Lemma selectKernel_existing_kernel_witness :
  fst (selectKernel
         (sample_collaborators true None (inl "failed"%string)
            (Some item_live_with_spec))
         jupyter SelectRemoteJupyterKernel [item_live_with_spec] None [])
  = inr (KernelSpecInterpreter.mk (Some specA) (Some interpreter39)
           (Some (live_model (Some "k-1"%string)))).
Proof.
  destruct (selectKernel_existing_kernel string
              (sample_collaborators true None (inl "failed"%string)
                 (Some item_live_with_spec))
              jupyter SelectRemoteJupyterKernel [item_live_with_spec] None []
              item_live_with_spec eq_refl (or_introl eq_refl))
    as (evs & _ & _ & Hkm & _).
  exact (proj1 (Hkm _ eq_refl)).
Defined.

(** ** The local connection methods *)

(** Unfolding of the monad of the local methods. *)
Ltac run_ML :=
  unfold mbind, ML_bind, bindL, callL, emitL, mret, ML_ret, retL, liftM; simpl.

(** X15: for a connection type other than jupyter and raw the result of
    [getKernelForLocalConnection] is empty; nothing is looked up, the list
    of local kernels is warmed up, the error is logged and the telemetry
    reports nothing found. *)
Theorem local_noConnection_is_empty :
  forall Error (C : Collaborators Error) (L : LocalCollaborators)
         hide md disableUI cancelToken tr,
    getKernelForLocalConnection C L hide noConnection md disableUI cancelToken tr
    = (inr KernelSpecInterpreter.empty,
       tr ++ [EvSelector (EvGetKernelSelectionsForLocalSession noConnection);
              EvTraceError;
              EvFindKernelForLocalConnection (TelemetryProps.mk false false false)]).
Proof.
  intros. unfold getKernelForLocalConnection. run_ML.
  now rewrite <- !app_assoc.
Qed.

(** X16: for a raw connection [getKernelForLocalConnection] returns the
    kernel spec that the kernel finder gives for the declared spec and the
    token, with the interpreter matched to it under the same token, or the
    empty result when no spec is found; it asks for no active interpreter,
    never prompts and never registers, and the ignore list and [disableUI]
    have no influence. *)
Theorem local_raw_never_prompts :
  forall Error (C : Collaborators Error) (L : LocalCollaborators)
         hide md disableUI cancelToken tr,
  exists evs,
    getKernelForLocalConnection C L hide raw md disableUI cancelToken tr
    = (inr match findKernelSpec L (metadata_kernelspec md) cancelToken with
           | Some ks =>
               KernelSpecInterpreter.mk (Some ks)
                 (findMatchingInterpreterWithToken L ks cancelToken) None
           | None => KernelSpecInterpreter.empty
           end,
       tr ++ evs) /\
    In (EvFindKernelSpec (metadata_kernelspec md) cancelToken) evs /\
    ~ In EvGetActiveInterpreter evs /\
    count_events is_prompt evs = 0%nat /\
    count_events is_registration evs = 0%nat /\
    (forall hide' disableUI',
        getKernelForLocalConnection C L hide' raw md disableUI' cancelToken tr
        = getKernelForLocalConnection C L hide raw md disableUI cancelToken tr).
Proof.
  intros. unfold getKernelForLocalConnection, getKernelForLocalRawConnection.
  run_ML.
  destruct (findKernelSpec L (metadata_kernelspec md) cancelToken) as [ks|];
    simpl; rewrite <- !app_assoc; eexists; (split; [reflexivity|]);
    simpl; (split; [tauto|]);
    (split; [intros Hin; repeat (destruct Hin as [Hin|Hin]; try discriminate);
             contradiction|]);
    repeat split.
Qed.

Lemma local_raw_never_prompts_witness :
  fst (getKernelForLocalConnection
         (sample_collaborators true None (inl "failed"%string) None)
         (sample_local None (Some specA) None)
         {[ "abc"%string ]} raw (Some metadata_Py3) None (Some true) [])
  = inr (KernelSpecInterpreter.mk (Some specA) (Some interpreter39) None).
Proof.
  destruct (local_raw_never_prompts string
              (sample_collaborators true None (inl "failed"%string) None)
              (sample_local None (Some specA) None)
              {[ "abc"%string ]} (Some metadata_Py3) None (Some true) [])
    as (evs & -> & _).
  reflexivity.
Defined.

(** X17: for a jupyter connection, when the metadata declares a kernel
    spec and a matching installed spec is found, that spec is returned
    with its matching interpreter after one update of the kernel
    environment, without asking for the active interpreter, prompting or
    registering, also when cancellation was requested. *)
Theorem local_jupyter_declared_spec_found :
  forall Error (C : Collaborators Error) (L : LocalCollaborators)
         hide md disableUI cancelToken tr kernelspec ks,
    metadata_kernelspec md = Some kernelspec ->
    findMatchingKernelSpecFor L kernelspec = Some ks ->
    getKernelForLocalConnection C L hide jupyter md disableUI cancelToken tr
    = (inr (KernelSpecInterpreter.mk (Some ks)
              (findMatchingInterpreter C (inl ks)) None),
       tr ++ [EvSelector (EvGetKernelSelectionsForLocalSession jupyter);
              EvFindMatchingKernelSpecFor kernelspec;
              EvSelector (EvFindMatchingInterpreter (inl ks));
              EvUseExistingKernel;
              EvSelector (EvUpdateKernelEnvironment
                            (findMatchingInterpreter C (inl ks)) ks);
              EvFindKernelForLocalConnection
                (TelemetryProps.mk true
                   (bool_decide (findMatchingInterpreter C (inl ks) <> None))
                   false)]).
Proof.
  intros Error C L hide md disableUI cancelToken tr kernelspec ks Hmd Hfound.
  unfold getKernelForLocalConnection, getKernelForLocalJupyterConnection.
  run_ML. rewrite Hmd. simpl. rewrite Hfound. simpl.
  now rewrite <- !app_assoc.
Qed.

Lemma local_jupyter_declared_spec_found_witness :
  fst (getKernelForLocalConnection
         (sample_collaborators true None (inl "failed"%string) None)
         (sample_local None (Some specA) None)
         ∅ jupyter (Some metadata_Py3) None (Some true) [])
  = inr (KernelSpecInterpreter.mk (Some specA) (Some interpreter39) None).
Proof.
  rewrite (local_jupyter_declared_spec_found string
             (sample_collaborators true None (inl "failed"%string) None)
             (sample_local None (Some specA) None)
             ∅ (Some metadata_Py3) None (Some true) []
             (KernelspecMetadata.mk "python3" (Some "Py3"%string)) specA
             eq_refl eq_refl).
  reflexivity.
Defined.

(** X18: for a jupyter connection, when cancellation was requested and
    the metadata declares no kernel spec or no installed spec matches the
    declared one, the result is empty: the active interpreter is not asked
    for, nothing is prompted and nothing is registered. *)
Theorem local_jupyter_cancelled_is_empty :
  forall Error (C : Collaborators Error) (L : LocalCollaborators)
         hide md disableUI tr,
    (forall kernelspec, metadata_kernelspec md = Some kernelspec ->
                        findMatchingKernelSpecFor L kernelspec = None) ->
    exists evs,
      getKernelForLocalConnection C L hide jupyter md disableUI (Some true) tr
      = (inr KernelSpecInterpreter.empty, tr ++ evs) /\
      ~ In EvGetActiveInterpreter evs /\
      count_events is_prompt evs = 0%nat /\
      count_events is_registration evs = 0%nat /\
      In EvTraceError evs /\
      In (EvFindKernelForLocalConnection (TelemetryProps.mk false false false)) evs.
Proof.
  intros Error C L hide md disableUI tr Hnone.
  unfold getKernelForLocalConnection, getKernelForLocalJupyterConnection.
  run_ML.
  destruct (metadata_kernelspec md) as [kernelspec|]; simpl.
  - rewrite (Hnone kernelspec eq_refl). simpl. rewrite <- !app_assoc.
    eexists. split; [reflexivity|]. simpl.
    repeat split; try tauto. intros [H|[H|[H|[H|[]]]]]; discriminate.
  - rewrite <- !app_assoc. eexists. split; [reflexivity|]. simpl.
    repeat split; try tauto. intros [H|[H|[H|[]]]]; discriminate.
Qed.

Lemma local_jupyter_cancelled_is_empty_witness :
  exists evs,
    getKernelForLocalConnection
      (sample_collaborators true (Some specA) (inr (Some specB)) None)
      (sample_local (Some interpreter39) None None)
      ∅ jupyter (Some metadata_Py3) None (Some true) []
    = (inr KernelSpecInterpreter.empty, [] ++ evs) /\
    ~ In EvGetActiveInterpreter evs /\
    count_events is_prompt evs = 0%nat /\
    count_events is_registration evs = 0%nat /\
    In EvTraceError evs /\
    In (EvFindKernelForLocalConnection (TelemetryProps.mk false false false)) evs.
Proof.
  apply (local_jupyter_cancelled_is_empty string
           (sample_collaborators true (Some specA) (inr (Some specB)) None)
           (sample_local (Some interpreter39) None None)
           ∅ (Some metadata_Py3) None []).
  intros kernelspec _. reflexivity.
Defined.

(** X19: for a jupyter connection without a declared kernel spec and
    without a cancellation request, the active interpreter is returned
    with the kernel spec that [searchAndRegisterKernel] gives for it, and
    the result is empty when there is no active interpreter; the user is
    not prompted in either case. *)
Theorem local_jupyter_undeclared_uses_active_interpreter :
  forall Error (C : Collaborators Error) (L : LocalCollaborators)
         hide md disableUI cancelToken tr,
    metadata_kernelspec md = None ->
    notCancelled cancelToken = true ->
    exists evs,
      getKernelForLocalConnection C L hide jupyter md disableUI cancelToken tr
      = (inr match getActiveInterpreter L with
             | Some i =>
                 KernelSpecInterpreter.mk
                   (searchAndRegisterKernel L i disableUI) (Some i) None
             | None => KernelSpecInterpreter.empty
             end,
         tr ++ evs) /\
      count_events is_prompt evs = 0%nat /\
      count_events is_registration evs
      = match getActiveInterpreter L with Some _ => 1%nat | None => 0%nat end.
Proof.
  intros Error C L hide md disableUI cancelToken tr Hmd Hnc.
  unfold getKernelForLocalConnection, getKernelForLocalJupyterConnection.
  run_ML. rewrite Hmd, Hnc. simpl.
  destruct (getActiveInterpreter L) as [i|]; simpl;
    [destruct (searchAndRegisterKernel L i disableUI); simpl|];
    rewrite <- !app_assoc; eexists; (split; [reflexivity|]); split; reflexivity.
Qed.

Lemma local_jupyter_undeclared_uses_active_interpreter_witness :
  fst (getKernelForLocalConnection
         (sample_collaborators true None (inl "failed"%string) None)
         (sample_local (Some interpreter39) None None)
         ∅ jupyter None None None [])
  = inr (KernelSpecInterpreter.mk (Some specB) (Some interpreter39) None).
Proof.
  destruct (local_jupyter_undeclared_uses_active_interpreter string
              (sample_collaborators true None (inl "failed"%string) None)
              (sample_local (Some interpreter39) None None)
              ∅ None None None [] eq_refl eq_refl) as (evs & -> & _).
  reflexivity.
Defined.

Lemma selector_events_not_local (evs : list Event) (e : LocalEvent) :
  (forall x, e <> EvSelector x) -> ~ In e (map EvSelector evs).
Proof.
  intros Hne Hin. apply in_map_iff in Hin as (x & Hx & _). now apply (Hne x).
Qed.

Lemma useInterpreterAsKernel_no_prompt {Error} (C : Collaborators Error)
    i type notFound disableUI :
  count_events is_prompt
    (map EvSelector (snd (useInterpreterAsKernel C i type notFound disableUI [])))
  = 0%nat.
Proof.
  rewrite useInterpreterAsKernel_run. cbv zeta.
  destruct (areDependenciesInstalled C i);
    [destruct (findMatchingKernelSpec C i)|];
    destruct (registerKernel C i disableUI);
    destruct (shouldNotify notFound disableUI); reflexivity.
Qed.

(** X20: for a jupyter connection, when the declared kernel spec is not
    found, no cancellation was requested and there is an active
    interpreter, [getKernelForLocalConnection] continues as
    [useInterpreterAsKernel] for that interpreter with the declared display
    name, without prompting; what that call returns is returned, and what
    it throws is thrown on, with no error log and no telemetry of the
    search after it. *)
Theorem local_jupyter_falls_back_to_active_interpreter :
  forall Error (C : Collaborators Error) (L : LocalCollaborators)
         hide md disableUI cancelToken tr kernelspec i,
    metadata_kernelspec md = Some kernelspec ->
    findMatchingKernelSpecFor L kernelspec = None ->
    notCancelled cancelToken = true ->
    getActiveInterpreter L = Some i ->
    exists res evs,
      useInterpreterAsKernel C i jupyter
        (KernelspecMetadata.display_name kernelspec) disableUI [] = (res, evs) /\
      count_events is_prompt (map EvSelector evs) = 0%nat /\
      let pre :=
        tr ++ [EvSelector (EvGetKernelSelectionsForLocalSession jupyter);
               EvFindMatchingKernelSpecFor kernelspec;
               EvGetActiveInterpreter] ++ map EvSelector evs in
      getKernelForLocalConnection C L hide jupyter md disableUI cancelToken tr
      = match res with
        | inl e => (inl e, pre)
        | inr sel =>
            (inr sel,
             pre ++
             (if bool_decide (KernelSpecInterpreter.kernelSpec sel = None)
              then [EvTraceError] else []) ++
             [EvFindKernelForLocalConnection
                (TelemetryProps.mk
                   (bool_decide (KernelSpecInterpreter.kernelSpec sel <> None))
                   (bool_decide (KernelSpecInterpreter.interpreter sel <> None))
                   false)])
        end.
Proof.
  intros Error C L hide md disableUI cancelToken tr kernelspec i
    Hmd Hnone Hnc Hactive.
  pose proof (useInterpreterAsKernel_no_prompt C i jupyter
                (KernelspecMetadata.display_name kernelspec) disableUI) as Hprompt.
  destruct (useInterpreterAsKernel C i jupyter
              (KernelspecMetadata.display_name kernelspec) disableUI [])
    as [res evs] eqn:Hrun.
  exists res, evs. split; [reflexivity|]. split; [exact Hprompt|].
  unfold getKernelForLocalConnection, getKernelForLocalJupyterConnection.
  run_ML. rewrite Hmd. simpl. rewrite Hnone. simpl. rewrite Hnc, Hactive.
  simpl. rewrite Hrun.
  destruct res as [e|sel]; simpl.
  - now rewrite <- !app_assoc.
  - destruct (bool_decide (KernelSpecInterpreter.kernelSpec sel = None)); simpl;
      now rewrite <- !app_assoc.
Qed.

Lemma local_jupyter_falls_back_to_active_interpreter_witness :
  fst (getKernelForLocalConnection
         (sample_collaborators false None (inl "failed"%string) None)
         (sample_local (Some interpreter39) None None)
         ∅ jupyter (Some metadata_Py3) None None [])
  = inl "failed"%string.
Proof.
  destruct (local_jupyter_falls_back_to_active_interpreter string
              (sample_collaborators false None (inl "failed"%string) None)
              (sample_local (Some interpreter39) None None)
              ∅ (Some metadata_Py3) None None []
              (KernelspecMetadata.mk "python3" (Some "Py3"%string)) interpreter39
              eq_refl eq_refl eq_refl eq_refl) as (res & evs & Hrun & _ & Heq).
  cbv zeta in Heq. rewrite Heq.
  injection Hrun as <- _. reflexivity.
Defined.

Lemma selectKernel_shows_picker {Error} (C : Collaborators Error)
    type telemetryEvent suggestions current :
  In (EvShowQuickPick suggestions (placeHolderFor C current))
     (snd (selectKernel C type telemetryEvent suggestions current [])).
Proof.
  destruct (showQuickPick C suggestions (placeHolderFor C current)) as [item|]
    eqn:Hpick.
  - rewrite (selectKernel_picked Error C _ _ _ _ _ _ Hpick). cbv zeta.
    destruct (Selection.interpreter (IKernelSpecQuickPickItem.selection item))
      as [i|];
      [destruct type|];
      try rewrite useInterpreterAsKernel_frame;
      try destruct (Selection.kernelModel (IKernelSpecQuickPickItem.selection item));
      try destruct (Selection.kernelSpec (IKernelSpecQuickPickItem.selection item));
      simpl; tauto.
  - rewrite (selectKernel_cancelled Error C _ _ _ _ _ Hpick). simpl. tauto.
Qed.

(** X21: for a jupyter connection, when the declared kernel spec is not
    found, no cancellation was requested and there is no active
    interpreter, the user is prompted: the picker is shown with the local
    suggestions filtered by the ignore list and no current kernel name,
    the outcome of the selection is the outcome of the call, and the
    telemetry of a returning call reports that the user was prompted. *)
Theorem local_jupyter_prompts_without_interpreter :
  forall Error (C : Collaborators Error) (L : LocalCollaborators)
         hide md disableUI cancelToken tr kernelspec,
    metadata_kernelspec md = Some kernelspec ->
    findMatchingKernelSpecFor L kernelspec = None ->
    notCancelled cancelToken = true ->
    getActiveInterpreter L = None ->
    let suggestions :=
      filterSuggestions hide (getKernelSelectionsForLocalSession C jupyter) in
    exists res evs,
      selectKernel C jupyter SelectLocalJupyterKernel suggestions None []
      = (res, evs) /\
      In (EvShowQuickPick suggestions (placeHolderFor C None)) evs /\
      let pre :=
        tr ++ [EvSelector (EvGetKernelSelectionsForLocalSession jupyter);
               EvFindMatchingKernelSpecFor kernelspec;
               EvGetActiveInterpreter;
               EvSelector (EvGetKernelSelectionsForLocalSession jupyter)]
           ++ map EvSelector evs in
      getKernelForLocalConnection C L hide jupyter md disableUI cancelToken tr
      = match res with
        | inl e => (inl e, pre)
        | inr sel =>
            (inr sel,
             pre ++
             (if bool_decide (KernelSpecInterpreter.kernelSpec sel = None)
              then [EvTraceError] else []) ++
             [EvFindKernelForLocalConnection
                (TelemetryProps.mk
                   (bool_decide (KernelSpecInterpreter.kernelSpec sel <> None))
                   (bool_decide (KernelSpecInterpreter.interpreter sel <> None))
                   true)])
        end.
Proof.
  intros Error C L hide md disableUI cancelToken tr kernelspec
    Hmd Hnone Hnc Hactive suggestions.
  pose proof (selectKernel_shows_picker C jupyter SelectLocalJupyterKernel
                suggestions None) as Hpicker.
  assert (Hlocal :
    selectLocalKernel C hide jupyter None [] =
    (fst (selectKernel C jupyter SelectLocalJupyterKernel suggestions None []),
     [EvGetKernelSelectionsForLocalSession jupyter] ++
     snd (selectKernel C jupyter SelectLocalJupyterKernel suggestions None []))).
  { unfold selectLocalKernel. run_M. fold suggestions.
    apply selectKernel_frame. }
  destruct (selectKernel C jupyter SelectLocalJupyterKernel suggestions None [])
    as [res evs] eqn:Hrun.
  exists res, evs. split; [reflexivity|]. split; [exact Hpicker|].
  unfold getKernelForLocalConnection, getKernelForLocalJupyterConnection.
  run_ML. rewrite Hmd. simpl. rewrite Hnone. simpl. rewrite Hnc, Hactive.
  simpl. rewrite Hlocal. simpl.
  destruct res as [e|sel]; simpl.
  - now rewrite <- !app_assoc.
  - destruct (bool_decide (KernelSpecInterpreter.kernelSpec sel = None)); simpl;
      now rewrite <- !app_assoc.
Qed.

Lemma local_jupyter_prompts_without_interpreter_witness :
  fst (getKernelForLocalConnection
         (sample_collaborators true None (inl "failed"%string) None)
         (sample_local None None None)
         {[ "abc"%string ]} jupyter (Some metadata_Py3) None None [])
  = inr KernelSpecInterpreter.empty.
Proof.
  destruct (local_jupyter_prompts_without_interpreter string
              (sample_collaborators true None (inl "failed"%string) None)
              (sample_local None None None)
              {[ "abc"%string ]} (Some metadata_Py3) None None []
              (KernelspecMetadata.mk "python3" (Some "Py3"%string))
              eq_refl eq_refl eq_refl eq_refl) as (res & evs & Hrun & _ & Heq).
  cbv zeta in Heq. rewrite Heq.
  vm_compute in Hrun. injection Hrun as <- _. reflexivity.
Defined.

(** X22: [askForLocalKernel] shows the error prompt with the display name
    of the kernel, or its name when the display name is empty or absent,
    or the empty string when there is no kernel; it returns nothing and
    shows no picker unless the answer is the button to select a different
    kernel, and then it returns the outcome of the local selection with
    that display name or name as the current kernel. *)
Theorem askForLocalKernel_answers :
  forall Error (C : Collaborators Error) (L : LocalCollaborators)
         hide type kernelSpec tr,
    let current := js_or (kernel_display_name kernelSpec) (kernel_name kernelSpec) in
    let shown := tr ++ [EvShowErrorMessage (or_empty current)] in
    (showErrorMessage L (or_empty current) <> Some (selectDifferentKernel L) ->
     askForLocalKernel C L hide type kernelSpec tr = (inr None, shown)) /\
    (showErrorMessage L (or_empty current) = Some (selectDifferentKernel L) ->
     askForLocalKernel C L hide type kernelSpec tr
     = (match fst (selectLocalKernel C hide type current []) with
        | inr r => inr (Some r)
        | inl e => inl e
        end,
        shown ++ map EvSelector (snd (selectLocalKernel C hide type current [])))) /\
    (forall d, kernel_display_name kernelSpec = Some d -> d <> EmptyString ->
               current = Some d) /\
    (opt_string_truthy (kernel_display_name kernelSpec) = false ->
     current = kernel_name kernelSpec) /\
    (forall ks, kernelSpec = Some (inl ks) ->
       (forall d, IJupyterKernelSpec.display_name ks = Some d ->
                  d <> EmptyString ->
                  current = Some d /\ or_empty current = d) /\
       (IJupyterKernelSpec.display_name ks = None \/
        IJupyterKernelSpec.display_name ks = Some EmptyString ->
        current = Some (IJupyterKernelSpec.name ks) /\
        or_empty current = IJupyterKernelSpec.name ks)) /\
    (forall km, kernelSpec = Some (inr km) ->
       (forall d, LiveKernelModel.display_name km = Some d ->
                  d <> EmptyString ->
                  current = Some d /\ or_empty current = d) /\
       (LiveKernelModel.display_name km = None \/
        LiveKernelModel.display_name km = Some EmptyString ->
        current = Some (LiveKernelModel.name km) /\
        or_empty current = LiveKernelModel.name km)) /\
    (kernelSpec = None -> current = None /\ or_empty current = EmptyString).
Proof.
  intros Error C L hide type kernelSpec tr current shown.
  assert (Hname : forall n : string, or_empty (Some n) = n)
    by (intros [|c r]; reflexivity).
  unfold askForLocalKernel, selectLocalJupyterKernel. run_ML.
  fold current. fold shown.
  split; [|split; [|split; [|split; [|split; [|split]]]]].
  - intros Hno. case_bool_decide; [contradiction | reflexivity].
  - intros Hyes. case_bool_decide; [|contradiction].
    destruct (selectLocalKernel C hide type current []) as [[e|r] evs];
      reflexivity.
  - intros d Hd Hne. subst current. unfold js_or. rewrite Hd. simpl.
    apply string_truthy_ne in Hne. now rewrite Hne.
  - intros Hfalsy. subst current. unfold js_or. now rewrite Hfalsy.
  - intros ks ->. subst current. unfold js_or. simpl. split.
    + intros d -> Hne. apply string_truthy_ne in Hne. simpl. rewrite Hne.
      split; [reflexivity | apply Hname].
    + intros [-> | ->]; simpl; (split; [reflexivity | apply Hname]).
  - intros km ->. subst current. unfold js_or. simpl. split.
    + intros d -> Hne. apply string_truthy_ne in Hne. simpl. rewrite Hne.
      split; [reflexivity | apply Hname].
    + intros [-> | ->]; simpl; (split; [reflexivity | apply Hname]).
  - intros ->. split; reflexivity.
Qed.

Lemma askForLocalKernel_answers_witness :
  askForLocalKernel
    (sample_collaborators true None (inl "failed"%string) None)
    (sample_local None None (Some "Cancel"%string))
    ∅ jupyter (Some (inl specR)) []
  = (inr None, [] ++ [EvShowErrorMessage "R"]) /\
  js_or (kernel_display_name (Some (inl (spec_named "ir"))))
        (kernel_name (Some (inl (spec_named "ir")))) = Some "ir"%string /\
  askForLocalKernel
    (sample_collaborators true None (inl "failed"%string) None)
    (sample_local None None (Some "Select a different Kernel"%string))
    {[ "abc"%string ]} jupyter (Some (inl (spec_named "ir"))) []
  = (inr (Some KernelSpecInterpreter.empty),
     [EvShowErrorMessage "ir";
      EvSelector (EvGetKernelSelectionsForLocalSession jupyter);
      EvSelector (EvTelemetry SelectLocalJupyterKernel);
      EvSelector (EvShowQuickPick [item_live "def"]
                    "Select a Kernel (current: ir)")]).
Proof.
  pose proof (askForLocalKernel_answers string
                (sample_collaborators true None (inl "failed"%string) None)
                (sample_local None None (Some "Cancel"%string))
                ∅ jupyter (Some (inl specR)) []) as H1.
  pose proof (askForLocalKernel_answers string
                (sample_collaborators true None (inl "failed"%string) None)
                (sample_local None None (Some "Select a different Kernel"%string))
                {[ "abc"%string ]} jupyter (Some (inl (spec_named "ir"))) []) as H2.
  cbv zeta in H1, H2.
  destruct H1 as (Hcancel & _).
  destruct H2 as (_ & Hselect & _ & _ & Hspec & _).
  split; [apply Hcancel; discriminate|].
  split; [exact (proj1 (proj2 (Hspec _ eq_refl) (or_introl eq_refl)))|].
  rewrite (Hselect eq_refl). vm_compute. reflexivity.
Defined.

Lemma char_toLowerCase_spec c :
  let n := nat_of_ascii c in
  ((65 <= n <= 90)%nat ->
   nat_of_ascii (char_toLowerCase c) = (n + 32)%nat) /\
  ((192 <= n <= 222)%nat -> n <> 215%nat ->
   nat_of_ascii (char_toLowerCase c) = (n + 32)%nat) /\
  ((n < 65)%nat \/ (90 < n < 192)%nat \/ n = 215%nat \/ (222 < n)%nat ->
   char_toLowerCase c = c).
Proof.
  intros n. unfold char_toLowerCase. fold n.
  pose proof (nat_ascii_bounded c) as Hb. fold n in Hb.
  destruct (Nat.leb_spec 65 n), (Nat.leb_spec n 90), (Nat.leb_spec 192 n),
    (Nat.leb_spec n 222), (Nat.eqb_spec n 215); simpl;
    repeat split; intros; try lia; try reflexivity;
    apply nat_ascii_embedding; lia.
Qed.

Lemma toLowerCase_get s :
  String.length (toLowerCase s) = String.length s /\
  forall i c, String.get i s = Some c ->
              String.get i (toLowerCase s) = Some (char_toLowerCase c).
Proof.
  induction s as [|a s [IHlen IHget]]; simpl.
  - split; [reflexivity | intros i c H; destruct i; discriminate].
  - split; [now f_equal|]. intros [|i] c H; simpl in *.
    + now injection H as <-.
    + now apply IHget.
Qed.

(** X23: [selectJupyterKernel] reads the settings first. A defined
    [localLaunch] of the connection decides whether the connection is
    local, whatever the configured server URI; without it the connection
    is local exactly when the URI with its upper case letters replaced by
    lower case ones is the local launch constant. A connection that is not
    local and is absent or not of the jupyter kind gives no result, with
    no prompt and no session; a local one runs the local selection with
    the type of the connection, or the given type when there is no
    connection; one that is not local and of the jupyter kind creates a
    session and runs the remote selection. *)
Theorem selectJupyterKernel_locality :
  forall Error (C : Collaborators Error) (L : LocalCollaborators)
         hide connection type current tr,
    (forall c b, connection = Some c -> Connection.localLaunch c = Some b ->
                 isLocalConnection L connection = b) /\
    (connection ≫= Connection.localLaunch = None ->
     (isLocalConnection L connection = true <->
      toLowerCase (jupyterServerURI L) = JupyterServerLocalLaunch L)) /\
    (String.length (toLowerCase (jupyterServerURI L))
     = String.length (jupyterServerURI L) /\
     forall i c, String.get i (jupyterServerURI L) = Some c ->
       exists c',
         String.get i (toLowerCase (jupyterServerURI L)) = Some c' /\
         ((65 <= nat_of_ascii c <= 90)%nat ->
          nat_of_ascii c' = (nat_of_ascii c + 32)%nat) /\
         ((192 <= nat_of_ascii c <= 222)%nat -> nat_of_ascii c <> 215%nat ->
          nat_of_ascii c' = (nat_of_ascii c + 32)%nat) /\
         ((nat_of_ascii c < 65)%nat \/ (90 < nat_of_ascii c < 192)%nat \/
          nat_of_ascii c = 215%nat \/ (222 < nat_of_ascii c)%nat ->
          c' = c)) /\
    (isLocalConnection L connection = false ->
     (forall c, connection = Some c -> Connection.type c <> jupyter) ->
     selectJupyterKernel C L hide connection type current tr
     = (inr None, tr ++ [EvGetSettings])) /\
    (isLocalConnection L connection = true ->
     selectJupyterKernel C L hide connection type current tr
     = let localType := default type (Connection.type <$> connection) in
       (match fst (selectLocalKernel C hide localType current []) with
        | inr r => inr (Some r)
        | inl e => inl e
        end,
        tr ++ EvGetSettings
           :: map EvSelector (snd (selectLocalKernel C hide localType current [])))) /\
    (isLocalConnection L connection = false ->
     forall c, connection = Some c -> Connection.type c = jupyter ->
     selectJupyterKernel C L hide connection type current tr
     = (match fst (selectRemoteKernel C hide current []) with
        | inr r => inr (Some r)
        | inl e => inl e
        end,
        tr ++ EvGetSettings :: EvCreateSession c
           :: map EvSelector (snd (selectRemoteKernel C hide current [])))).
Proof.
  intros Error C L hide connection type current tr.
  split; [|split; [|split; [|split; [|split]]]].
  - intros c b -> Hb. unfold isLocalConnection. simpl. now rewrite Hb.
  - intros Hnone. unfold isLocalConnection. rewrite Hnone.
    apply bool_decide_eq_true.
  - destruct (toLowerCase_get (jupyterServerURI L)) as [Hlen Hget].
    split; [exact Hlen|]. intros i c Hc.
    exists (char_toLowerCase c). split; [now apply Hget|].
    apply char_toLowerCase_spec.
  - intros Hlocal Hkind. unfold selectJupyterKernel. run_ML. rewrite Hlocal.
    destruct connection as [c|]; [|reflexivity].
    specialize (Hkind c eq_refl).
    destruct (Connection.type c); [reflexivity | contradiction | reflexivity].
  - intros Hlocal. unfold selectJupyterKernel, selectLocalJupyterKernel.
    run_ML. rewrite Hlocal.
    destruct (selectLocalKernel C hide _ current []) as [[e|r] evs]; simpl;
      now rewrite <- !app_assoc.
  - intros Hlocal c -> Hkind.
    unfold selectJupyterKernel, selectRemoteJupyterKernel.
    run_ML. rewrite Hlocal, Hkind. simpl.
    destruct (selectRemoteKernel C hide current []) as [[e|r] evs]; simpl;
      now rewrite <- !app_assoc.
Qed.

Lemma selectJupyterKernel_locality_witness :
  isLocalConnection (sample_local None None None)
    (Some (Connection.mk (Some true) jupyter)) = true /\
  isLocalConnection (sample_local_with_uri "LOCAL" None) None = true /\
  selectJupyterKernel
    (sample_collaborators true None (inl "failed"%string) None)
    (sample_local None None None)
    ∅ (Some (Connection.mk (Some false) raw)) raw None []
  = (inr None, [] ++ [EvGetSettings]).
Proof.
  pose proof (selectJupyterKernel_locality string
                (sample_collaborators true None (inl "failed"%string) None)
                (sample_local None None None)
                ∅ (Some (Connection.mk (Some true) jupyter)) raw None [])
    as (H1 & _).
  pose proof (selectJupyterKernel_locality string
                (sample_collaborators true None (inl "failed"%string) None)
                (sample_local_with_uri "LOCAL" None)
                ∅ None raw None [])
    as (_ & H2 & _).
  pose proof (selectJupyterKernel_locality string
                (sample_collaborators true None (inl "failed"%string) None)
                (sample_local None None None)
                ∅ (Some (Connection.mk (Some false) raw)) raw None [])
    as (_ & _ & _ & H3 & _).
  split; [exact (H1 _ _ eq_refl eq_refl)|]. split.
  - apply (H2 eq_refl). reflexivity.
  - apply H3; [reflexivity|]. intros c [= <-]. discriminate.
Defined.
